(** * Nicor Gas bill downloader: the polling algorithm of [downloader.mjs]

    A shallow embedding of [NicorGasBillDownloader] ([requestBill],
    [tryDownloadingBill], [tryBulkDownload]), of [PollingOptions] and of
    [AuthenticationError], followed by the properties of the bill-location
    algorithm.

    Effects are explicit: every [fetch], every [fs.writeFile] and every
    [console.log] appends an event to a trace, and the answers of the portal
    and of the file system come from an environment record.  JavaScript
    exceptions and promise rejections are one completion kind of a small
    state-and-exception monad. *)

From Stdlib Require Import ZArith List String Ascii Bool Lia.
From Stdlib Require Import DecimalString.
Import ListNotations.
Open Scope string_scope.
Open Scope Z_scope.

(** ** Strings *)

(** The line feed written ['\n'] in the source. *)
Definition nl : string := String (ascii_of_nat 10) EmptyString.

(** [s.startsWith(search)]. *)
Fixpoint startsWith (s search : string) {struct search} : bool :=
  match search with
  | EmptyString => true
  | String c search' =>
      match s with
      | EmptyString => false
      | String c' s' => Ascii.eqb c c' && startsWith s' search'
      end
  end.

(** [s.includes(search)]: [search] occurs in [s] as a contiguous substring. *)
Fixpoint includes (s search : string) : bool :=
  startsWith s search ||
  match s with
  | EmptyString => false
  | String _ rest => includes rest search
  end.

(** [count] copies of the character [c]. *)
Fixpoint repeat_char (c : ascii) (count : nat) : string :=
  match count with
  | O => EmptyString
  | S k => String c (repeat_char c k)
  end.

(** [s.padStart(targetLength, '0')]. *)
Definition padStart0 (s : string) (targetLength : nat) : string :=
  repeat_char "0"%char (targetLength - String.length s) ++ s.

(** [Math.abs(number).toString()] for an integer. *)
Definition abs_toString (number : Z) : string :=
  NilZero.string_of_uint (N.to_uint (Z.abs_N number)).

(** date-fns [addLeadingZeros(number, targetLength)]. *)
Definition addLeadingZeros (number : Z) (targetLength : nat) : string :=
  let sign := if number <? 0 then "-" else "" in
  sign ++ padStart0 (abs_toString number) targetLength.

(** ** Dates

    A [Date] is a JavaScript Date that holds a time value, given by its civil
    (local) calendar fields; the month is zero-based as in [getMonth()].  The
    Invalid Date that the constructor can yield is a [DateObject] below. *)

Record Date : Type := mkDate {
  getFullYear : Z;
  getMonth : Z;
  getDate : Z
}.

Definition isLeapYear (y : Z) : bool :=
  (y mod 4 =? 0) && (negb (y mod 100 =? 0) || (y mod 400 =? 0)).

(** Number of days of the zero-based month [m] of year [y]. *)
Definition daysInMonth (y m : Z) : Z :=
  if m =? 1 then (if isLeapYear y then 29 else 28)
  else if (m =? 3) || (m =? 5) || (m =? 8) || (m =? 10) then 30
  else 31.

Definition prevMonth (y m : Z) : Z * Z :=
  if m =? 0 then (y - 1, 11) else (y, m - 1).

Definition nextMonth (y m : Z) : Z * Z :=
  if m =? 11 then (y + 1, 0) else (y, m + 1).

(** Day-of-month overflow of the [Date] constructor: a day below 1 borrows
    from the preceding months, a day past the end of the month carries into
    the following ones. *)
Fixpoint rollDays (fuel : nat) (y m d : Z) : Date :=
  match fuel with
  | O => mkDate y m d
  | S k =>
      if d <? 1 then
        let '(y', m') := prevMonth y m in
        rollDays k y' m' (d + daysInMonth y' m')
      else if daysInMonth y m <? d then
        let '(y', m') := nextMonth y m in
        rollDays k y' m' (d - daysInMonth y m)
      else mkDate y m d
  end.

(** The year that the [Date] constructor reads: a year in 0..99 means
    1900 + year. *)
Definition MakeFullYear (year : Z) : Z :=
  if (0 <=? year) && (year <=? 99) then 1900 + year else year.

(** The calendar date that [new Date(year, monthIndex, day)] denotes when its
    time value is in range: the year is read by [MakeFullYear], a month index
    outside 0..11 moves the year, and the day is rolled over. *)
Definition civilDate (year monthIndex day : Z) : Date :=
  let yr := MakeFullYear year in
  rollDays (S (Z.abs_nat day)) (yr + monthIndex / 12) (monthIndex mod 12) day.

(** The number of days from 1 January 1970 to day [d] of the zero-based
    month [m] of year [y], in the proleptic Gregorian calendar. *)
Definition daysFromCivil (y m d : Z) : Z :=
  let y' := if m <=? 1 then y - 1 else y in
  let era := y' / 400 in
  let yoe := y' - era * 400 in
  let mp := if m <=? 1 then m + 10 else m - 2 in
  let doy := (153 * mp + 2) / 5 + d - 1 in
  let doe := yoe * 365 + yoe / 4 - yoe / 100 + doy in
  era * 146097 + doe - 719468.

(** ECMAScript [MakeDay(year, month, date)]: the day number of the first of
    the month, the month index brought into 0..11, plus [date - 1]. *)
Definition MakeDay (year month date : Z) : Z :=
  daysFromCivil (year + month / 12) (month mod 12) 1 + date - 1.

Definition msPerDay : Z := 86400000.

(** The largest magnitude of a time value, 8.64e15 milliseconds. *)
Definition maxTimeValue : Z := 8640000000000000.

(** What a variable of type [Date] may hold at run time. *)
Inductive DateObject : Type :=
| ValidDate (date : Date)
| InvalidDate.

(** [new Date(date)]: a copy with the same time value. *)
Definition Date_copy (date : Date) : Date :=
  mkDate (getFullYear date) (getMonth date) (getDate date).

(** date-fns [format] tokens [MM], [dd] and [yyyy]. *)
Definition format_MM (date : Date) : string := addLeadingZeros (getMonth date + 1) 2.
Definition format_dd (date : Date) : string := addLeadingZeros (getDate date) 2.
Definition format_yyyy (date : Date) : string :=
  let signedYear := getFullYear date in
  let year := if 0 <? signedYear then signedYear else 1 - signedYear in
  addLeadingZeros year 4.

(** [format(date, 'MM/yyyy')], [format(date, 'MM/dd/yyyy')] and
    [format(date, 'yyyy-MM-dd')]. *)
Definition format_MM_yyyy (date : Date) : string :=
  format_MM date ++ "/" ++ format_yyyy date.
Definition format_MM_dd_yyyy (date : Date) : string :=
  format_MM date ++ "/" ++ format_dd date ++ "/" ++ format_yyyy date.
Definition format_yyyy_MM_dd (date : Date) : string :=
  format_yyyy date ++ "-" ++ format_MM date ++ "-" ++ format_dd date.

(** ** JavaScript values that are thrown or reject a promise *)

Inductive JsValue : Type :=
| JsUndefined                               (* the reason of a bare [Promise.reject()] *)
| JsError (message : string)                (* [new Error(message)] *)
| AuthenticationError (message : string)    (* [new AuthenticationError(message)] *)
| JsTypeError (message : string)            (* what [fetch] rejects with *)
| JsRangeError (message : string)           (* what date-fns [format] throws *)
| JsSystemError (message : string).         (* what [fs.writeFile] rejects with *)

(** [error instanceof AuthenticationError]. *)
Definition instanceof_AuthenticationError (error : JsValue) : bool :=
  match error with
  | AuthenticationError _ => true
  | _ => false
  end.

(** [error.message]; read by the source on an [AuthenticationError] only. *)
Definition message_of (error : JsValue) : string :=
  match error with
  | JsUndefined => ""
  | JsError message | AuthenticationError message
  | JsTypeError message | JsRangeError message | JsSystemError message => message
  end.

(** ** The portal, the file system and the trace of effects *)

Definition Body : Type := list Byte.byte.

Record Cookie : Type := mkCookie {
  cookie_name : string;
  cookie_value : string
}.

(** The fields of a fetch [Response] that the downloader reads. *)
Record Response : Type := mkResponse {
  redirected : bool;
  url : string;
  contentType : option string;    (* [headers.get('Content-Type')], [None] for null *)
  body : option Body              (* [None] for a null body *)
}.

Inductive FetchOutcome : Type :=
| FetchRejected (message : string)
| FetchFulfilled (response : Response).

(** What varies between two calls of [fetch] in [requestBill]. *)
Record Request : Type := mkRequest {
  requestUrl : string;
  cookieHeader : string
}.

Inductive Color : Type := Plain | Blue | Green | Red.

Inductive Event : Type :=
| EvLog (color : Color) (text : string)
| EvFetch (request : Request)
| EvWriteFile (path : string) (data : Body) (failure : option string).

Definition Trace : Type := list Event.

Definition is_fetch (e : Event) : bool :=
  match e with EvFetch _ => true | _ => false end.

Definition is_write (e : Event) : bool :=
  match e with EvWriteFile _ _ _ => true | _ => false end.

Definition count_fetches (t : Trace) : nat := List.length (filter is_fetch t).
Definition count_writes (t : Trace) : nat := List.length (filter is_write t).

(** The requests of a trace, in the order they were issued. *)
Fixpoint fetched (t : Trace) : list Request :=
  match t with
  | [] => []
  | EvFetch r :: rest => r :: fetched rest
  | _ :: rest => fetched rest
  end.

(** The files of a trace whose write succeeded. *)
Fixpoint saved (t : Trace) : list (string * Body) :=
  match t with
  | [] => []
  | EvWriteFile p d None :: rest => (p, d) :: saved rest
  | _ :: rest => saved rest
  end.

(** The collaborators outside the repository.  The answer of [fetch] may
    depend on the request and on how many requests came before it; likewise
    for [writeFile], whose answer is [Some message] when it fails.
    [localTZA] is the offset of the host's time zone in milliseconds at a
    local time, ECMAScript's [LocalTZA]. *)
Record Env : Type := mkEnv {
  fetch : nat -> Request -> FetchOutcome;
  writeFile : nat -> string -> Body -> option string;
  path_resolve : string -> string -> string;
  localTZA : Z -> Z
}.

(** ECMAScript [TimeClip(UTC(t))] for the local midnight of day number
    [dayNumber]: whether the time value is within 8.64e15 milliseconds of the
    epoch. *)
Definition inTimeRangeDay (env : Env) (dayNumber : Z) : bool :=
  let local := dayNumber * msPerDay in
  Z.abs (local - localTZA env local) <=? maxTimeValue.

(** Whether [new Date(year, monthIndex, day)] holds a time value. *)
Definition inTimeRange (env : Env) (year monthIndex day : Z) : bool :=
  inTimeRangeDay env (MakeDay (MakeFullYear year) monthIndex day).

(** [new Date(year, monthIndex, day)]: the local midnight of that calendar
    day, or an Invalid Date when its time value is out of range. *)
Definition Date_new (env : Env) (year monthIndex day : Z) : DateObject :=
  if inTimeRange env year monthIndex day
  then ValidDate (civilDate year monthIndex day)
  else InvalidDate.

(** [new Date(date)]: a copy with the same time value, or Invalid Date. *)
Definition DateObject_copy (date : DateObject) : DateObject :=
  match date with
  | ValidDate d => ValidDate (mkDate (getFullYear d) (getMonth d) (getDate d))
  | InvalidDate => InvalidDate
  end.

(** ** date-fns [eachMonthOfInterval]

    The library is not part of the repository; this follows the function of
    its versions 3 and 4: the later of the two dates closes the interval, a
    cursor starts at the first of the month of the earlier one and moves a
    month at a time while it holds a time value not after the later date,
    and the months are returned in reverse when the start is after the end.
    Two dates are compared as instants by their calendar fields. *)

Definition Date_ltb (a b : Date) : bool :=
  (getFullYear a <? getFullYear b)
  || ((getFullYear a =? getFullYear b)
      && ((getMonth a <? getMonth b)
          || ((getMonth a =? getMonth b) && (getDate a <? getDate b)))).

(** The months counted from year 0: the index of a date's month and the
    first day of the month of an index. *)
Definition monthIndex (date : Date) : Z := getFullYear date * 12 + getMonth date.
Definition firstOfMonth (index : Z) : Date := mkDate (index / 12) (index mod 12) 1.

(** The integers [first], [first + 1], ..., [last]. *)
Definition monthIndexes (first last : Z) : list Z :=
  map (fun i => first + Z.of_nat i) (seq 0 (Z.to_nat (last - first + 1))).

Fixpoint takeWhile {A} (keep : A -> bool) (l : list A) : list A :=
  match l with
  | [] => []
  | x :: rest => if keep x then x :: takeWhile keep rest else []
  end.

Definition eachMonthOfInterval (env : Env) (from to : Date) : list Date :=
  let reversed := Date_ltb to from in
  let earlier := if reversed then to else from in
  let later := if reversed then from else to in
  let midnight :=
    inTimeRangeDay env
      (MakeDay (getFullYear earlier) (getMonth earlier) (getDate earlier)) in
  let dates :=
    if midnight then
      takeWhile
        (fun date => inTimeRangeDay env (MakeDay (getFullYear date) (getMonth date) 1))
        (map firstOfMonth (monthIndexes (monthIndex earlier) (monthIndex later)))
    else [] in
  if reversed then rev dates else dates.

(** The dates of a list are in chronological order: each one is earlier
    than all that follow it. *)
Definition chronological (dates : list Date) : Prop :=
  forall i j a b,
    (i < j)%nat ->
    nth_error dates i = Some a ->
    nth_error dates j = Some b ->
    Date_ltb a b = true.

(** ** A monad for effects and exceptions *)

Inductive Completion (A : Type) : Type :=
| Normal (a : A)
| Threw (error : JsValue)
| Diverged.
Arguments Normal {A} a.
Arguments Threw {A} error.
Arguments Diverged {A}.

Definition M (A : Type) : Type := Trace -> Completion A * Trace.

Definition ret {A} (a : A) : M A := fun t => (Normal a, t).
Definition throw {A} (error : JsValue) : M A := fun t => (Threw error, t).
Definition diverge {A} : M A := fun t => (Diverged, t).

Definition bind {A B} (c : M A) (k : A -> M B) : M B :=
  fun t =>
    match c t with
    | (Normal a, t') => k a t'
    | (Threw error, t') => (Threw error, t')
    | (Diverged, t') => (Diverged, t')
    end.

(** [try { body } catch (error) { handler }]. *)
Definition try_catch {A} (body : M A) (handler : JsValue -> M A) : M A :=
  fun t =>
    match body t with
    | (Threw error, t') => handler error t'
    | other => other
    end.

Notation "x <- c ;; k" := (bind c (fun x => k))
  (at level 61, c at next level, right associativity).
Notation "c ;; k" := (bind c (fun _ => k))
  (at level 61, right associativity).

Definition console_log (color : Color) (text : string) : M unit :=
  fun t => (Normal tt, (t ++ [EvLog color text])%list).

Definition invalid_time_message : string := "Invalid time value".

(** date-fns [format(date, pattern)], with the pattern given as the function
    it computes on a date that holds a time value: an Invalid Date makes it
    throw [RangeError('Invalid time value')]. *)
Definition format (date : DateObject) (pattern : Date -> string) : M string :=
  match date with
  | ValidDate d => ret (pattern d)
  | InvalidDate => throw (JsRangeError invalid_time_message)
  end.

(** ** downloader-options.mjs *)

Record PollingOptions : Type := mkPollingOptions {
  startTryingOn : Z;
  stopTryingOn : Z
}.

(** [new PollingOptions()]. *)
Definition PollingOptions_new : PollingOptions :=
  {| startTryingOn := 14; stopTryingOn := 20 |}.

(** The own properties of the object a caller passes as [pollingOptions]. *)
Record OptionsArg : Type := mkOptionsArg {
  arg_startTryingOn : option Z;
  arg_stopTryingOn : option Z
}.

(** [Object.assign(target, source)] where [source] may be undefined. *)
Definition Object_assign (target : PollingOptions) (source : option OptionsArg)
  : PollingOptions :=
  match source with
  | None => target
  | Some src =>
      {| startTryingOn :=
           match arg_startTryingOn src with Some v => v | None => startTryingOn target end;
         stopTryingOn :=
           match arg_stopTryingOn src with Some v => v | None => stopTryingOn target end |}
  end.

Definition Math_min (a b : Z) : Z := Z.min a b.
Definition Math_max (a b : Z) : Z := Z.max a b.

(** ** downloader.mjs *)

Record NicorGasBillDownloader : Type := mkDownloader {
  accountNumber : string;
  billId : string;
  _sessionCookies : list Cookie
}.

Definition _baseURL : string := "https://customerportal.southerncompany.com".

Definition auth_message : string :=
  "Unable to make the bill request. An authentication issue has likely occured.".

Definition unknown_message : string := "An unknown error occurred.".

(** How the body of the [try] block of [requestBill] ends: by throwing, by
    returning the response body, or by returning a rejected promise, which
    the surrounding [catch] does not see because it is not awaited. *)
Inductive TryResult : Type :=
| TryThrow (error : JsValue)
| TryReturn (stream : Body)
| TryReturnRejected (reason : JsValue).

(** Lines 109-136: the awaited [fetch] and the three branches on the response. *)
Definition requestBill_try (fetched : FetchOutcome) : TryResult :=
  match fetched with
  | FetchRejected message => TryThrow (JsTypeError message)
  | FetchFulfilled response =>
      if redirected response && includes (url response) "Generic" then
        TryThrow (AuthenticationError auth_message)
      else
        match contentType response, body response with
        | Some ct, Some stream =>
            if String.eqb ct "application/pdf" then TryReturn stream
            else TryReturnRejected JsUndefined
        | _, _ => TryReturnRejected JsUndefined
        end
  end.

(** Lines 137-143: the [catch] clause. *)
Definition requestBill_catch (r : TryResult) : TryResult :=
  match r with
  | TryThrow error =>
      if instanceof_AuthenticationError error then TryThrow error
      else TryThrow (JsError unknown_message)
  | other => other
  end.

(** The promise an [async] function returns, as seen by an [await]. *)
Definition settle (r : TryResult) : Completion Body :=
  match r with
  | TryThrow error => Threw error
  | TryReturn stream => Normal stream
  | TryReturnRejected reason => Threw reason
  end.

Section Downloader.

Variable env : Env.
Variable self : NicorGasBillDownloader.

(** Lines 106-128: the request for a formatted bill date; of the options
    of [fetch] only the URL and the cookie header vary. *)
Definition requestOf (billDateString : string) : Request :=
  {| requestUrl :=
       _baseURL ++ "/Billing/ViewBill?BillDate=" ++ billDateString
                ++ "&BillId=" ++ billId self ++ "&BillRoutingNum=1";
     cookieHeader :=
       String.concat "; "
         (map (fun cookie => cookie_name cookie ++ "=" ++ cookie_value cookie)
              (_sessionCookies self)) |}.

(** The request for a bill date that holds a time value. *)
Definition buildRequest (billDate : Date) : Request :=
  requestOf (format_MM_dd_yyyy billDate).

(** Lines 104-144.  [format] at line 105 stands before the [try] of line
    108: what it throws rejects the promise as it is, before any request. *)
Definition requestBill (billDate : DateObject) : M Body :=
  billDateString <- format billDate format_MM_dd_yyyy ;;
  fun t =>
    let request := requestOf billDateString in
    let fetched := fetch env (count_fetches t) request in
    (settle (requestBill_catch (requestBill_try fetched)), (t ++ [EvFetch request])%list).

Definition fs_writeFile (path : string) (data : Body) : M unit :=
  fun t =>
    let failure := writeFile env (count_writes t) path data in
    (match failure with
     | None => Normal tt
     | Some message => Threw (JsSystemError message)
     end,
     (t ++ [EvWriteFile path data failure])%list).

(** The path a document found for a date that holds a time value is saved
    under (lines 80-81). *)
Definition savePathOf (saveDirectory : string) (estimatedBillDate : Date) : string :=
  let fileName := format_yyyy_MM_dd (Date_copy estimatedBillDate) in
  path_resolve env saveDirectory (accountNumber self ++ "-" ++ fileName ++ ".pdf").

(** How one turn of the [for] loop of [tryDownloadingBill] ends. *)
Inductive Turn : Type := ReturnFromFunction | NextDay.

(** How the loop as a whole ends. *)
Inductive LoopExit : Type := Returned | RanOut.

(** Lines 73-91: the body of the loop for one [day].  [format] at line 74
    stands outside the [try] of line 76: what it throws ends the function. *)
Definition tryDay (issuedYear issuedMonth : Z) (saveDirectory : string) (day : Z)
  : M Turn :=
  let estimatedBillDate := Date_new env issuedYear issuedMonth day in
  trying <- format estimatedBillDate format_MM_dd_yyyy ;;
  console_log Plain ("- Trying " ++ trying) ;;
  try_catch
    (stream <- requestBill estimatedBillDate ;;
     console_log Blue "Bill found! Saving PDF to disk." ;;
     fileName <- format (DateObject_copy estimatedBillDate) format_yyyy_MM_dd ;;
     let savePath :=
       path_resolve env saveDirectory (accountNumber self ++ "-" ++ fileName ++ ".pdf") in
     fs_writeFile savePath stream ;;
     console_log Green ("Success!" ++ nl) ;;
     ret ReturnFromFunction)
    (fun error =>
       if instanceof_AuthenticationError error then
         console_log Red (message_of error) ;;
         ret ReturnFromFunction
       else ret NextDay).

(** Line 72: [for (let day = startTryingOn; day <= stopTryingOn; day++)]. *)
Fixpoint forDays (fuel : nat) (issuedYear issuedMonth : Z) (saveDirectory : string)
    (day stopTryingOn : Z) : M LoopExit :=
  match fuel with
  | O => diverge
  | S fuel' =>
      if day <=? stopTryingOn then
        turn <- tryDay issuedYear issuedMonth saveDirectory day ;;
        match turn with
        | ReturnFromFunction => ret Returned
        | NextDay =>
            forDays fuel' issuedYear issuedMonth saveDirectory (day + 1) stopTryingOn
        end
      else ret RanOut
  end.

Definition exhausted_message (issuedDateFormated : string) : string :=
  "Unable to find and/or download a bill for the month of " ++ issuedDateFormated.

Definition banner (issuedDateFormated : string) : string :=
  "Trying to download bill issued in the month of " ++ issuedDateFormated.

(** The clamped bounds have at most 32 days between them; one more turn sees
    the loop condition fail. *)
Definition loop_fuel : nat := 33.

(** Lines 62-96, for an [issuedDate] that holds a time value, as the months
    of [eachMonthOfInterval] do. *)
Definition tryDownloadingBill (issuedDate : Date) (saveDirectory : string)
    (pollingOptions : option OptionsArg) : M unit :=
  let issuedYear := getFullYear issuedDate in
  let issuedMonth := getMonth issuedDate in
  let issuedDateFormated := format_MM_yyyy issuedDate in
  console_log Blue (banner issuedDateFormated) ;;
  let options := Object_assign PollingOptions_new pollingOptions in
  let startTryingOn := Math_min 31 (Math_max 0 (startTryingOn options)) in
  let stopTryingOn := Math_min 31 (Math_max 0 (stopTryingOn options)) in
  exit <- forDays loop_fuel issuedYear issuedMonth saveDirectory
                  startTryingOn stopTryingOn ;;
  match exit with
  | Returned => ret tt
  | RanOut =>
      console_log Red ("Operation failed." ++ nl) ;;
      throw (JsError (exhausted_message issuedDateFormated))
  end.

(** Lines 50-54: the loop over [months], each turn inside [try {} catch {}]. *)
Fixpoint forMonths (months : list Date) (saveDirectory : string)
    (pollingOptions : option OptionsArg) : M unit :=
  match months with
  | [] => ret tt
  | month :: rest =>
      try_catch (tryDownloadingBill month saveDirectory pollingOptions)
                (fun _ => ret tt) ;;
      forMonths rest saveDirectory pollingOptions
  end.

(** Lines 48-55, for two dates that hold a time value. *)
Definition tryBulkDownload (from to : Date) (saveDirectory : string)
    (pollingOptions : option OptionsArg) : M unit :=
  let months := eachMonthOfInterval env from to in
  forMonths months saveDirectory pollingOptions.

End Downloader.

(** ** Vocabulary of the specification *)

(** The outcome of one probe. *)
Inductive ProbeOutcome : Type :=
| DocumentFound (bytes : Body)
| NotFound
| AuthenticationFailed (reason : string).

(** How the [try]/[catch] of [tryDownloadingBill] reads the promise of
    [requestBill]: fulfilled, rejected with an [AuthenticationError], or
    rejected with anything else. *)
Definition probeOutcome (fetched : FetchOutcome) : ProbeOutcome :=
  match settle (requestBill_catch (requestBill_try fetched)) with
  | Normal stream => DocumentFound stream
  | Threw (AuthenticationError message) => AuthenticationFailed message
  | _ => NotFound
  end.

(** The outcome of the probe for [day] when it is the [index]-th request. *)
Definition probeAt (env : Env) (self : NicorGasBillDownloader)
    (issuedDate : Date) (index : nat) (day : Z) : ProbeOutcome :=
  probeOutcome
    (fetch env index
       (buildRequest self (civilDate (getFullYear issuedDate) (getMonth issuedDate) day))).

(** Clamping into [0,31] in the words of the specification: the lower bound
    is raised to 0, the upper bound lowered to 31. *)
Definition clamp (x : Z) : Z :=
  if x <? 0 then 0 else if 31 <? x then 31 else x.

(** The days [first], [first + 1], ..., [last] in ascending order. *)
Definition daysFromTo (first last : Z) : list Z :=
  map (fun i => first + Z.of_nat i) (seq 0 (Z.to_nat (last - first + 1))).

(** The bounds the loop of [tryDownloadingBill] runs between. *)
Definition effectiveStart (pollingOptions : option OptionsArg) : Z :=
  Math_min 31 (Math_max 0 (startTryingOn (Object_assign PollingOptions_new pollingOptions))).
Definition effectiveStop (pollingOptions : option OptionsArg) : Z :=
  Math_min 31 (Math_max 0 (stopTryingOn (Object_assign PollingOptions_new pollingOptions))).

(** The options object [{ startTryingOn: s, stopTryingOn: e }]. *)
Definition window (s e : Z) : option OptionsArg :=
  Some {| arg_startTryingOn := Some s; arg_stopTryingOn := Some e |}.

(** The lines [tryDownloadingBill] logs first, one per call. *)
Definition is_banner (e : Event) : bool :=
  match e with
  | EvLog Blue text => startsWith text "Trying to download bill issued in the month of "
  | _ => false
  end.

(** ** Sample collaborators *)

Definition pdf (stream : Body) : FetchOutcome :=
  FetchFulfilled {| redirected := false;
                    url := "https://customerportal.southerncompany.com/Billing/ViewBill";
                    contentType := Some "application/pdf";
                    body := Some stream |}.

Definition noBill : FetchOutcome :=
  FetchFulfilled {| redirected := false;
                    url := "https://customerportal.southerncompany.com/Billing/ViewBill";
                    contentType := Some "text/html; charset=utf-8";
                    body := Some [] |}.

Definition loginPage : FetchOutcome :=
  FetchFulfilled {| redirected := true;
                    url := "https://customerportal.southerncompany.com/Error/Generic";
                    contentType := Some "text/html; charset=utf-8";
                    body := Some [] |}.

(** A portal that answers its requests from a script, in order, and [noBill]
    afterwards; a file system that answers its writes likewise and then
    succeeds; a host whose local time is UTC. *)
Definition scripted (answers : list FetchOutcome) (writes : list (option string)) : Env :=
  {| fetch := fun index _ => nth index answers noBill;
     writeFile := fun index _ _ => nth index writes None;
     path_resolve := fun directory name => directory ++ "/" ++ name;
     localTZA := fun _ => 0 |}.

Definition sampleDownloader : NicorGasBillDownloader :=
  {| accountNumber := "12349780000";
     billId := "98567123467";
     _sessionCookies := [ {| cookie_name := "sid"; cookie_value := "abc" |};
                         {| cookie_name := "LDC"; cookie_value := "7" |} ] |}.

Definition march2024 : Date := mkDate 2024 2 1.
Definition april2024 : Date := mkDate 2024 3 1.
Definition may2024 : Date := mkDate 2024 4 1.

Definition sampleBill : Body := [Byte.x25; Byte.x50; Byte.x44; Byte.x46].

(** ** Auxiliary vocabulary for the traces of [tryDownloadingBill] *)

(** [search] occurs in [s]: the meaning of [includes]. *)
Definition contains (s search : string) : Prop :=
  exists before after, s = before ++ search ++ after.

(** The authentication signal and the document signal of a response. *)
Definition authSignal (response : Response) : Prop :=
  redirected response = true /\ contains (url response) "Generic".

Definition documentSignal (response : Response) : Prop :=
  contentType response = Some "application/pdf" /\ body response <> None.

(** The file name [{accountId}-{isoDate:yyyy-MM-dd}.pdf] of the specification. *)
Definition billFileName (accountId : string) (resolved : Date) : string :=
  accountId ++ "-" ++ format_yyyy_MM_dd resolved ++ ".pdf".

(** The events of probing one date: the log line and the request. *)
Definition probing (self : NicorGasBillDownloader) (date : Date) : Trace :=
  [EvLog Plain ("- Trying " ++ format_MM_dd_yyyy date); EvFetch (buildRequest self date)].

(** The events of saving a located document, up to the outcome of the write. *)
Definition saving (env : Env) (self : NicorGasBillDownloader) (saveDirectory : string)
    (date : Date) (stream : Body) (failure : option string) : Trace :=
  [EvLog Blue "Bill found! Saving PDF to disk.";
   EvWriteFile (savePathOf env self saveDirectory date) stream failure].

(** The loop of [tryDownloadingBill] over an explicit list of days. *)
Fixpoint overDays (env : Env) (self : NicorGasBillDownloader)
    (issuedYear issuedMonth : Z) (saveDirectory : string) (days : list Z) : M LoopExit :=
  match days with
  | [] => ret RanOut
  | day :: rest =>
      turn <- tryDay env self issuedYear issuedMonth saveDirectory day ;;
      match turn with
      | ReturnFromFunction => ret Returned
      | NextDay => overDays env self issuedYear issuedMonth saveDirectory rest
      end
  end.

(** The trace of [n] days without a bill, from [first] on. *)
Definition passedOver (self : NicorGasBillDownloader) (y m first : Z) (n : nat) : Trace :=
  flat_map (fun d => probing self (civilDate y m d))
           (daysFromTo first (first + Z.of_nat n - 1)).

(** The trace that the months leave one after the other, whatever the
    completion of each. *)
Definition afterMonths env self (months : list Date) (dir : string)
    (opts : option OptionsArg) (t : Trace) : Trace :=
  fold_left (fun t' month => snd (tryDownloadingBill env self month dir opts t'))
            months t.

(** ** Sample runs *)

(** The second request is answered by the login page (the third would have
    been answered by a bill). *)
Definition portalAuthSecond : Env :=
  scripted [noBill; loginPage; pdf sampleBill] [].

(** The second request is answered by a bill. *)
Definition portalFoundSecond : Env :=
  scripted [noBill; pdf sampleBill] [].

(** The first request is answered by a bill, and the disk is full. *)
Definition portalWriteFails : Env :=
  scripted [pdf sampleBill] [Some "ENOSPC: no space left on device"].


(** No request is answered by a bill. *)
Definition portalEmpty : Env := scripted [] [].

(** ** The constructor and further vocabulary *)

(** Lines 22-25 and 39: [new NicorGasBillDownloader(accountNumber, billingId)];
    the session cookies start empty and only [authenticate] replaces them. *)
Definition NicorGasBillDownloader_new (accountNumber billingId : string)
  : NicorGasBillDownloader :=
  {| accountNumber := accountNumber;
     billId := billingId;
     _sessionCookies := [] |}.

(** The Date that line 73 builds for the candidate day [day] of the month of
    [issuedDate] holds a time value: it is not an Invalid Date. *)
Definition holdsTime (env : Env) (issuedDate : Date) (day : Z) : Prop :=
  Date_new env (getFullYear issuedDate) (getMonth issuedDate) day <> InvalidDate.


(** The number of days of the window a call runs through. *)
Definition windowSize (pollingOptions : option OptionsArg) : nat :=
  Z.to_nat (effectiveStop pollingOptions - effectiveStart pollingOptions + 1).

(** A portal whose session has expired: every request is answered by the
    login page. *)
Definition portalLoggedOut : Env :=
  {| fetch := fun _ _ => loginPage;
     writeFile := fun _ _ _ => None;
     path_resolve := fun directory name => directory ++ "/" ++ name;
     localTZA := fun _ => 0 |}.


(** * Properties *)

(** ** Strings and dates *)

Lemma startsWith_spec (s search : string) :
  startsWith s search = true <-> exists rest, s = search ++ rest.
Proof.
  revert s; induction search as [|c p IH]; intros s; simpl.
  - split; [intros _; now exists s | intros _; reflexivity].
  - destruct s as [|c' s].
    + split; [discriminate | intros [rest H]; discriminate].
    + rewrite andb_true_iff, Ascii.eqb_eq, IH. split.
      * intros [-> [rest ->]]. now exists rest.
      * intros [rest H]. injection H as -> ->. split; [reflexivity | now exists rest].
Qed.

Lemma includes_spec (s search : string) :
  includes s search = true <-> contains s search.
Proof.
  unfold contains. induction s as [|c s IH]; simpl.
  - rewrite orb_false_r, startsWith_spec. split.
    + intros [rest H]. now exists "", rest.
    + intros [before [after H]]. destruct before; simpl in H.
      * now exists after.
      * discriminate.
  - rewrite orb_true_iff, IH, startsWith_spec. split.
    + intros [[rest H] | [before [after H]]].
      * now exists "", rest.
      * exists (String c before), after. simpl. now rewrite H.
    + intros [before [after H]]. destruct before as [|c' before]; simpl in H.
      * left. now exists after.
      * right. exists before, after. congruence.
Qed.











(** ** Traces *)

Local Open Scope list_scope.

Lemma count_fetches_app (t u : Trace) :
  count_fetches (t ++ u) = (count_fetches t + count_fetches u)%nat.
Proof. unfold count_fetches. now rewrite filter_app, length_app. Qed.

Lemma count_writes_app (t u : Trace) :
  count_writes (t ++ u) = (count_writes t + count_writes u)%nat.
Proof. unfold count_writes. now rewrite filter_app, length_app. Qed.

Lemma fetched_app (t u : Trace) : fetched (t ++ u) = fetched t ++ fetched u.
Proof.
  induction t as [|e t IH]; [reflexivity|].
  destruct e; simpl; now rewrite IH.
Qed.

Lemma saved_app (t u : Trace) : saved (t ++ u) = saved t ++ saved u.
Proof.
  induction t as [|e t IH]; [reflexivity|].
  destruct e as [| |p d [msg|]]; simpl; now rewrite IH.
Qed.

Lemma count_fetches_fetched (t : Trace) : count_fetches t = List.length (fetched t).
Proof.
  unfold count_fetches. induction t as [|e t IH]; [reflexivity|].
  destruct e; simpl; auto.
Qed.

Lemma count_fetches_log color text : count_fetches [EvLog color text] = 0%nat.
Proof. reflexivity. Qed.

Lemma count_writes_log color text : count_writes [EvLog color text] = 0%nat.
Proof. reflexivity. Qed.

Lemma count_fetches_probing self date : count_fetches (probing self date) = 1%nat.
Proof. reflexivity. Qed.

Lemma count_fetches_saving env self dir date stream failure :
  count_fetches (saving env self dir date stream failure) = 0%nat.
Proof. reflexivity. Qed.

(** One turn of the loop, case by case on the outcome of its probe and of
    its write. *)
Lemma tryDay_run env self y m dir day t :
  tryDay env self y m dir day t =
  let date := civilDate y m day in
  if inTimeRange env y m day then
    match probeOutcome (fetch env (count_fetches t) (buildRequest self date)) with
    | NotFound => (Normal NextDay, t ++ probing self date)
    | AuthenticationFailed reason =>
        (Normal ReturnFromFunction, t ++ probing self date ++ [EvLog Red reason])
    | DocumentFound stream =>
        match writeFile env (count_writes t) (savePathOf env self dir date) stream with
        | None =>
            (Normal ReturnFromFunction,
             t ++ probing self date ++ saving env self dir date stream None
               ++ [EvLog Green ("Success!" ++ nl)%string])
        | Some message =>
            (Normal NextDay,
             t ++ probing self date ++ saving env self dir date stream (Some message))
        end
    end
  else (Threw (JsRangeError invalid_time_message), t).
Proof.
  cbv zeta. unfold tryDay, Date_new.
  destruct (inTimeRange env y m day); [|reflexivity].
  unfold requestBill, format, DateObject_copy, bind, try_catch, console_log,
    fs_writeFile, probeOutcome, ret, probing, saving, buildRequest, savePathOf,
    Date_copy.
  cbv beta.
  rewrite count_fetches_app. simpl (count_fetches [_]). rewrite Nat.add_0_r.
  destruct (settle _) as [stream|error|] eqn:Hs.
  - rewrite !count_writes_app. simpl (count_writes [_]). rewrite !Nat.add_0_r.
    destruct (writeFile _ _ _ _) as [message|];
      repeat (rewrite <- app_assoc; simpl); reflexivity.
  - destruct error; repeat (rewrite <- app_assoc; simpl); reflexivity.
  - exfalso. destruct (requestBill_catch _); discriminate.
Qed.

(** ** The window of days *)

Lemma daysFromTo_empty (first last : Z) : last < first -> daysFromTo first last = [].
Proof.
  intros H. unfold daysFromTo.
  replace (Z.to_nat (last - first + 1)) with O by lia. reflexivity.
Qed.

Lemma daysFromTo_cons (first last : Z) :
  first <= last -> daysFromTo first last = first :: daysFromTo (first + 1) last.
Proof.
  intros H. unfold daysFromTo.
  replace (Z.to_nat (last - first + 1)) with (S (Z.to_nat (last - (first + 1) + 1))) by lia.
  simpl. f_equal; [lia|].
  rewrite <- seq_shift, map_map. apply map_ext. intros i. lia.
Qed.

Lemma daysFromTo_length (first last : Z) :
  List.length (daysFromTo first last) = Z.to_nat (last - first + 1).
Proof. unfold daysFromTo. now rewrite length_map, length_seq. Qed.

Lemma daysFromTo_nth (first last : Z) (i : nat) (d : Z) :
  nth_error (daysFromTo first last) i = Some d <->
  d = first + Z.of_nat i /\ first + Z.of_nat i <= last.
Proof.
  unfold daysFromTo. split.
  - intros H. pose proof (nth_error_Some (map (fun i => first + Z.of_nat i)
        (seq 0 (Z.to_nat (last - first + 1)))) i) as Hlen.
    rewrite H, length_map, length_seq in Hlen.
    assert (Hi : (i < Z.to_nat (last - first + 1))%nat) by (apply Hlen; discriminate).
    rewrite nth_error_map, nth_error_seq in H.
    destruct (Nat.ltb_spec i (Z.to_nat (last - first + 1))); [|lia].
    simpl in H. split; [congruence | lia].
  - intros [-> Hle].
    rewrite nth_error_map, nth_error_seq.
    destruct (Nat.ltb_spec i (Z.to_nat (last - first + 1))); [reflexivity | lia].
Qed.

(** [Math.min(31, Math.max(0, x))] is the clamp of the specification. *)
Lemma Math_min_max_clamp (x : Z) : Math_min 31 (Math_max 0 x) = clamp x.
Proof.
  unfold Math_min, Math_max, clamp.
  destruct (Z.ltb_spec x 0); [lia|]. destruct (Z.ltb_spec 31 x); lia.
Qed.

Lemma clamp_bounds (x : Z) : 0 <= clamp x <= 31.
Proof.
  unfold clamp. destruct (Z.ltb_spec x 0); [lia|]. destruct (Z.ltb_spec 31 x); lia.
Qed.

Lemma effectiveStart_bounds opts : 0 <= effectiveStart opts <= 31.
Proof. unfold effectiveStart. rewrite Math_min_max_clamp. apply clamp_bounds. Qed.

Lemma effectiveStop_bounds opts : 0 <= effectiveStop opts <= 31.
Proof. unfold effectiveStop. rewrite Math_min_max_clamp. apply clamp_bounds. Qed.

(** ** The loop *)

(** With enough fuel the [for] loop visits exactly the days from [day] to
    [stopTryingOn], in ascending order. *)
Lemma forDays_overDays env self y m dir :
  forall fuel day stop t,
    (Z.to_nat (stop - day + 1) < fuel)%nat ->
    forDays env self fuel y m dir day stop t =
    overDays env self y m dir (daysFromTo day stop) t.
Proof.
  induction fuel as [|fuel IH]; intros day stop t Hfuel; [lia|].
  cbn [forDays]. destruct (Z.leb_spec day stop) as [Hle|Hgt].
  - rewrite (daysFromTo_cons day stop Hle). cbn [overDays]. unfold bind.
    destruct (tryDay env self y m dir day t) as [[[|]|error|] t1]; try reflexivity.
    apply IH. lia.
  - now rewrite daysFromTo_empty by lia.
Qed.

Lemma tryDownloadingBill_run env self issuedDate dir opts t :
  tryDownloadingBill env self issuedDate dir opts t =
  match overDays env self (getFullYear issuedDate) (getMonth issuedDate) dir
          (daysFromTo (effectiveStart opts) (effectiveStop opts))
          (t ++ [EvLog Blue (banner (format_MM_yyyy issuedDate))]) with
  | (Normal Returned, t') => (Normal tt, t')
  | (Normal RanOut, t') =>
      (Threw (JsError (exhausted_message (format_MM_yyyy issuedDate))),
       t' ++ [EvLog Red ("Operation failed." ++ nl)%string])
  | (Threw error, t') => (Threw error, t')
  | (Diverged, t') => (Diverged, t')
  end.
Proof.
  unfold tryDownloadingBill, bind, console_log.
  fold (effectiveStart opts) (effectiveStop opts).
  rewrite forDays_overDays.
  - destruct (overDays _ _ _ _ _ _ _) as [[[|]|error|] t']; reflexivity.
  - pose proof (effectiveStart_bounds opts). pose proof (effectiveStop_bounds opts).
    unfold loop_fuel. lia.
Qed.

(** The four ways a turn of the loop can go when the date of its day holds
    a time value. *)
Lemma overDays_cons env self y m dir day rest t :
  inTimeRange env y m day = true ->
  let date := civilDate y m day in
  let outcome := probeOutcome (fetch env (count_fetches t) (buildRequest self date)) in
  (outcome = NotFound /\
   overDays env self y m dir (day :: rest) t =
   overDays env self y m dir rest (t ++ probing self date))
  \/ (exists reason, outcome = AuthenticationFailed reason /\
      overDays env self y m dir (day :: rest) t =
      (Normal Returned, t ++ probing self date ++ [EvLog Red reason]))
  \/ (exists stream, outcome = DocumentFound stream /\
      writeFile env (count_writes t) (savePathOf env self dir date) stream = None /\
      overDays env self y m dir (day :: rest) t =
      (Normal Returned,
       t ++ probing self date ++ saving env self dir date stream None
         ++ [EvLog Green ("Success!" ++ nl)%string]))
  \/ (exists stream message, outcome = DocumentFound stream /\
      writeFile env (count_writes t) (savePathOf env self dir date) stream = Some message /\
      overDays env self y m dir (day :: rest) t =
      overDays env self y m dir rest
        (t ++ probing self date ++ saving env self dir date stream (Some message))).
Proof.
  intros Hvalid. cbv zeta. cbn [overDays]. unfold bind.
  rewrite tryDay_run, Hvalid. cbv zeta.
  destruct (probeOutcome _) as [stream| |reason].
  - destruct (writeFile _ _ _ _) as [message|] eqn:Hw.
    + right; right; right. exists stream, message. auto.
    + right; right; left. exists stream. auto.
  - left. auto.
  - right; left. exists reason. auto.
Qed.

(** The turn of a day whose date is an Invalid Date: the [RangeError] of
    line 74 ends the loop with no event at all. *)
Lemma overDays_invalid env self y m dir day rest t :
  inTimeRange env y m day = false ->
  overDays env self y m dir (day :: rest) t
  = (Threw (JsRangeError invalid_time_message), t).
Proof.
  intros Hinvalid. cbn [overDays]. unfold bind.
  now rewrite tryDay_run, Hinvalid.
Qed.

Lemma holdsTime_inTimeRange env issuedDate day :
  holdsTime env issuedDate day <->
  inTimeRange env (getFullYear issuedDate) (getMonth issuedDate) day = true.
Proof.
  unfold holdsTime, Date_new.
  destruct (inTimeRange _ _ _ _); split; intros H; congruence.
Qed.

Lemma not_holdsTime_inTimeRange env issuedDate day :
  ~ holdsTime env issuedDate day <->
  inTimeRange env (getFullYear issuedDate) (getMonth issuedDate) day = false.
Proof.
  rewrite holdsTime_inTimeRange.
  destruct (inTimeRange _ _ _ _); split; intros H; congruence.
Qed.

Section LoopFacts.

Variable env : Env.
Variable self : NicorGasBillDownloader.
Variables y m : Z.
Variable dir : string.

Let req (d : Z) : Request := buildRequest self (civilDate y m d).
Let probe (index : nat) (d : Z) : ProbeOutcome := probeOutcome (fetch env index (req d)).
Let success : Trace := [EvLog Green ("Success!" ++ nl)%string].

(** Days whose date holds a time value and whose probe is NotFound are
    passed over, leaving only their log line and their request in the
    trace. *)
Lemma overDays_skip :
  forall skipped rest t,
    (forall i d, nth_error skipped i = Some d ->
                 inTimeRange env y m d = true
                 /\ probe (count_fetches t + i) d = NotFound) ->
    overDays env self y m dir (skipped ++ rest) t =
    overDays env self y m dir rest
      (t ++ flat_map (fun d => probing self (civilDate y m d)) skipped).
Proof.
  induction skipped as [|day skipped IH]; intros rest t Hskip.
  - simpl. now rewrite app_nil_r.
  - destruct (Hskip O day eq_refl) as [Hvalid H0]. rewrite Nat.add_0_r in H0.
    rewrite <- app_comm_cons.
    destruct (overDays_cons env self y m dir day (skipped ++ rest) t Hvalid)
      as [[_ ->] | [[reason [E _]] | [[stream [E _]] | [stream [message [E _]]]]]];
      try (unfold probe, req in H0; congruence).
    rewrite IH.
    + cbn [flat_map]. now rewrite app_assoc.
    + intros i d Hi. rewrite count_fetches_app, count_fetches_probing.
      replace (count_fetches t + 1 + i)%nat with (count_fetches t + S i)%nat by lia.
      now apply Hskip.
Qed.

(** The shape of every run of the loop: [n] days are passed over, each with
    a date that holds a time value, none of them on an authentication
    failure and none of them saving anything; then either the days are used
    up, or the date of the next day is an Invalid Date and the [RangeError]
    of line 74 ends the function, or the next day ends the function on an
    authentication failure or on a saved document. *)
Lemma overDays_shape :
  forall days t,
  exists (n : nat) (pre : Trace),
    (saved pre = [] /\ filter is_banner pre = []) /\
    fetched pre = map req (firstn n days) /\
    (n <= List.length days)%nat /\
    (forall i d reason, (i < n)%nat -> nth_error days i = Some d ->
       inTimeRange env y m d = true /\
       probe (count_fetches t + i) d <> AuthenticationFailed reason) /\
    ((n = List.length days /\
      overDays env self y m dir days t = (Normal RanOut, t ++ pre))
     \/ exists d, nth_error days n = Some d /\
        ((inTimeRange env y m d = false /\
          overDays env self y m dir days t
          = (Threw (JsRangeError invalid_time_message), t ++ pre))
         \/ (inTimeRange env y m d = true /\
             ((exists reason,
                 probe (count_fetches t + n) d = AuthenticationFailed reason /\
                 overDays env self y m dir days t =
                 (Normal Returned,
                  t ++ pre ++ probing self (civilDate y m d) ++ [EvLog Red reason]))
              \/ (exists stream,
                 probe (count_fetches t + n) d = DocumentFound stream /\
                 overDays env self y m dir days t =
                 (Normal Returned,
                  t ++ pre ++ probing self (civilDate y m d)
                    ++ saving env self dir (civilDate y m d) stream None
                    ++ success)))))).
Proof.
  induction days as [|day rest IH]; intros t.
  - exists O, []. repeat split; try reflexivity; try (intros; lia).
    left. split; [reflexivity|]. simpl. now rewrite app_nil_r.
  - destruct (inTimeRange env y m day) eqn:Hvalid.
    2:{ exists O, []. repeat split; try reflexivity; try (simpl; lia); try (intros; lia).
        right. exists day. split; [reflexivity|]. left.
        split; [exact Hvalid|]. rewrite app_nil_r.
        now apply overDays_invalid. }
    destruct (overDays_cons env self y m dir day rest t Hvalid)
      as [[E Hrun] | [[reason [E Hrun]] | [[stream [E [Hw Hrun]]] | [stream [message [E [Hw Hrun]]]]]]].
    + (* NotFound *)
      destruct (IH (t ++ probing self (civilDate y m day)))
        as [n [pre [[Hsaved Hban] [Hfetched [Hn [Hno Hend]]]]]].
      assert (Hidx : forall i, (count_fetches (t ++ probing self (civilDate y m day)) + i
                                = count_fetches t + S i)%nat).
      { intros i. rewrite count_fetches_app, count_fetches_probing. lia. }
      exists (S n), (probing self (civilDate y m day) ++ pre).
      split; [split|split; [|split; [|split]]].
      * now rewrite saved_app, Hsaved.
      * now rewrite filter_app, Hban.
      * rewrite fetched_app, Hfetched. reflexivity.
      * simpl. lia.
      * intros [|i] d reason Hi Hd.
        -- injection Hd as <-. rewrite Nat.add_0_r. split; [exact Hvalid|].
           unfold probe, req. congruence.
        -- rewrite <- Hidx. apply Hno; [lia | exact Hd].
      * rewrite Hrun. destruct Hend as [[-> Hr] | [d [Hd Hr]]].
        -- left. split; [reflexivity|]. now rewrite Hr, app_assoc.
        -- right. exists d. split; [exact Hd|].
           rewrite Hidx in Hr.
           destruct Hr as [[Hd' Hr] | [Hd' [[r [P Hr]] | [s [P Hr]]]]].
           ++ left. split; [exact Hd'|]. now rewrite Hr, app_assoc.
           ++ right. split; [exact Hd'|]. left. exists r. split; [exact P|].
              rewrite Hr. now rewrite <- !app_assoc.
           ++ right. split; [exact Hd'|]. right. exists s. split; [exact P|].
              rewrite Hr. now rewrite <- !app_assoc.
    + (* AuthenticationFailed *)
      exists O, []. repeat split; try reflexivity; try (simpl; lia); try (intros; lia).
      right. exists day. split; [reflexivity|]. right. split; [exact Hvalid|].
      left. exists reason.
      rewrite Nat.add_0_r. split; [exact E | exact Hrun].
    + (* DocumentFound, saved *)
      exists O, []. repeat split; try reflexivity; try (simpl; lia); try (intros; lia).
      right. exists day. split; [reflexivity|]. right. split; [exact Hvalid|].
      right. exists stream.
      rewrite Nat.add_0_r. split; [exact E | exact Hrun].
    + (* DocumentFound, write failed *)
      set (turn := probing self (civilDate y m day)
                   ++ saving env self dir (civilDate y m day) stream (Some message)) in *.
      destruct (IH (t ++ turn)) as [n [pre [[Hsaved Hban] [Hfetched [Hn [Hno Hend]]]]]].
      assert (Hidx : forall i, (count_fetches (t ++ turn) + i = count_fetches t + S i)%nat).
      { intros i. unfold turn.
        rewrite !count_fetches_app, count_fetches_probing, count_fetches_saving. lia. }
      exists (S n), (turn ++ pre).
      split; [split|split; [|split; [|split]]].
      * now rewrite saved_app, Hsaved.
      * now rewrite filter_app, Hban.
      * rewrite fetched_app, Hfetched. reflexivity.
      * simpl. lia.
      * intros [|i] d reason Hi Hd.
        -- injection Hd as <-. rewrite Nat.add_0_r. split; [exact Hvalid|].
           unfold probe, req. congruence.
        -- rewrite <- Hidx. apply Hno; [lia | exact Hd].
      * rewrite Hrun. destruct Hend as [[-> Hr] | [d [Hd Hr]]].
        -- left. split; [reflexivity|]. now rewrite Hr, app_assoc.
        -- right. exists d. split; [exact Hd|].
           rewrite Hidx in Hr.
           destruct Hr as [[Hd' Hr] | [Hd' [[r [P Hr]] | [s [P Hr]]]]].
           ++ left. split; [exact Hd'|]. now rewrite Hr, app_assoc.
           ++ right. split; [exact Hd'|]. left. exists r. split; [exact P|].
              rewrite Hr. now rewrite <- !app_assoc.
           ++ right. split; [exact Hd'|]. right. exists s. split; [exact P|].
              rewrite Hr. now rewrite <- !app_assoc.
Qed.

End LoopFacts.

(** ** The request layer *)

(** The three ways the promise of [requestBill] settles on a response. *)
Lemma settle_response (response : Response) :
  let settled := settle (requestBill_catch (requestBill_try (FetchFulfilled response))) in
  (authSignal response /\ settled = Threw (AuthenticationError auth_message))
  \/ (~ authSignal response /\ documentSignal response /\
      exists stream, body response = Some stream /\ settled = Normal stream)
  \/ (~ authSignal response /\ ~ documentSignal response /\ settled = Threw JsUndefined).
Proof.
  unfold authSignal, documentSignal. cbv zeta. cbn [requestBill_try].
  destruct (redirected response) eqn:Hred; cbn [andb].
  - destruct (includes (url response) "Generic") eqn:Hinc.
    + left. split; [|reflexivity]. split; [reflexivity|]. now apply includes_spec.
    + assert (Hno : ~ (true = true /\ contains (url response) "Generic")).
      { intros [_ Hc]. apply includes_spec in Hc. congruence. }
      destruct (contentType response) as [ct|]; destruct (body response) as [stream|];
        try (right; right; repeat split; try assumption; try reflexivity;
             intros [H1 H2]; congruence).
      destruct (String.eqb_spec ct "application/pdf") as [->|Hne].
      * right; left. repeat split; try assumption; try discriminate.
        exists stream. split; reflexivity.
      * right; right. repeat split; try assumption.
        intros [H1 H2]. congruence.
  - assert (Hno : ~ (false = true /\ contains (url response) "Generic")).
    { intros [H _]. discriminate. }
    destruct (contentType response) as [ct|]; destruct (body response) as [stream|];
      try (right; right; repeat split; try assumption; try reflexivity;
           intros [H1 H2]; congruence).
    destruct (String.eqb_spec ct "application/pdf") as [->|Hne].
    + right; left. repeat split; try assumption; try discriminate.
      exists stream. split; reflexivity.
    + right; right. repeat split; try assumption.
      intros [H1 H2]. congruence.
Qed.

Ltac settle_goal :=
  repeat match goal with
         | |- _ /\ _ => split
         | |- _ <-> _ => split
         | |- ~ _ => intro
         | |- forall _, _ => intro
         | H : exists _, _ |- _ => destruct H
         | H : _ /\ _ |- _ => destruct H
         end;
  try match goal with
      | H : Threw _ = Threw ?r |- _ => is_var r; injection H as <-
      end;
  try discriminate; try tauto; try congruence; eauto 6.

Lemma settle_rejected (message : string) :
  settle (requestBill_catch (requestBill_try (FetchRejected message))) =
  Threw (JsError unknown_message).
Proof. reflexivity. Qed.

(** C5: every fetch response is classified as exactly one of three outcomes,
    in this priority order: AuthenticationFailed if and only if the response
    was redirected and its final URL contains [Generic]; otherwise
    DocumentFound if and only if the content type is [application/pdf] and a
    body is present; otherwise NotFound.  A failed fetch is NotFound as well. *)
Theorem C5_probe_classification (response : Response) :
  let outcome := probeOutcome (FetchFulfilled response) in
  ((exists reason, outcome = AuthenticationFailed reason) <-> authSignal response)
  /\ ((exists bytes, outcome = DocumentFound bytes) <->
      ~ authSignal response /\ documentSignal response)
  /\ (outcome = NotFound <-> ~ authSignal response /\ ~ documentSignal response)
  /\ (forall bytes, outcome = DocumentFound bytes -> body response = Some bytes)
  /\ (forall message, probeOutcome (FetchRejected message) = NotFound).
Proof.
  cbv zeta. unfold probeOutcome.
  destruct (settle_response response)
    as [[Ha ->] | [[Hna [Hd [stream [Hb ->]]]] | [Hna [Hnd ->]]]];
    settle_goal.
Qed.

Lemma requestBill_valid env self (date : Date) (t : Trace) :
  requestBill env self (ValidDate date) t
  = (settle (requestBill_catch (requestBill_try
               (fetch env (count_fetches t) (buildRequest self date)))),
     t ++ [EvFetch (buildRequest self date)]).
Proof. reflexivity. Qed.

(** C10, amended: the promise of [requestBill] is rejected with one of four
    reasons only.  For an Invalid Date it is the [RangeError] that [format]
    throws at line 105, before the [try] and before any request.  For a date
    that holds a time value it is one of three: the AuthenticationError of
    the redirect-to-Generic signal, and of nothing else; [undefined] for a
    response that is neither that signal nor a PDF with a body; a fresh
    [Error('An unknown error occurred.')] when [fetch] itself failed.  The
    error of the transport is never the reason. *)
Theorem C10_requestBill_rejection_reasons env self (billDate : DateObject) (t : Trace) :
  let completion := fst (requestBill env self billDate t) in
  (forall reason, completion = Threw reason ->
     reason = AuthenticationError auth_message \/ reason = JsUndefined
     \/ reason = JsError unknown_message
     \/ reason = JsRangeError invalid_time_message)
  /\ ((exists message, completion = Threw (JsRangeError message)) <->
      billDate = InvalidDate)
  /\ (billDate = InvalidDate -> snd (requestBill env self billDate t) = t)
  /\ (forall date, billDate = ValidDate date ->
      let answer := fetch env (count_fetches t) (buildRequest self date) in
      snd (requestBill env self billDate t) = t ++ [EvFetch (buildRequest self date)]
      /\ ((exists message, completion = Threw (AuthenticationError message)) <->
          exists response, answer = FetchFulfilled response /\ authSignal response)
      /\ (completion = Threw JsUndefined <->
          exists response, answer = FetchFulfilled response /\
                           ~ authSignal response /\ ~ documentSignal response)
      /\ (completion = Threw (JsError unknown_message) <->
          exists message, answer = FetchRejected message))
  /\ (forall message, completion <> Threw (JsTypeError message))
  /\ completion <> Diverged.
Proof.
  cbv zeta. destruct billDate as [date|].
  - rewrite requestBill_valid. cbn [fst snd].
    assert (Hsame : forall date', ValidDate date = ValidDate date' -> date' = date)
      by (intros date' H; now injection H).
    destruct (fetch env (count_fetches t) (buildRequest self date))
      as [message|response] eqn:Hanswer.
    + rewrite settle_rejected.
      repeat match goal with
             | |- _ /\ _ => split
             | |- forall date', ValidDate date = ValidDate date' -> _ =>
                 let d := fresh "d" in let H := fresh "H" in
                 intros d H; apply Hsame in H; subst d; rewrite Hanswer
             end;
        settle_goal.
    + destruct (settle_response response)
        as [[Ha ->] | [[Hna [Hd [stream [Hb ->]]]] | [Hna [Hnd ->]]]];
        repeat match goal with
               | |- _ /\ _ => split
               | |- forall date', ValidDate date = ValidDate date' -> _ =>
                   let d := fresh "d" in let H := fresh "H" in
                   intros d H; apply Hsame in H; subst d; rewrite Hanswer
               end;
        settle_goal.
  - cbn [requestBill format bind throw fst snd]. unfold requestBill, bind. cbn.
    settle_goal.
Qed.

(** The claim of exactly three reasons fails: an Invalid Date, such as the
    one [new Date(275760, 8, 14)] yields, makes [requestBill] reject with a
    [RangeError], and no request is made. *)
Lemma C10_invalid_date_is_a_fourth_reason :
  Date_new portalEmpty 275760 8 14 = InvalidDate
  /\ requestBill portalEmpty sampleDownloader (Date_new portalEmpty 275760 8 14) []
     = (Threw (JsRangeError "Invalid time value"), [])
  /\ JsRangeError "Invalid time value" <> AuthenticationError auth_message
  /\ JsRangeError "Invalid time value" <> JsUndefined
  /\ JsRangeError "Invalid time value" <> JsError unknown_message.
Proof. repeat split; discriminate. Qed.

(** ** The per-month operation *)

Lemma daysFromTo_app (n : nat) :
  forall first last,
    first + Z.of_nat n <= last + 1 ->
    daysFromTo first last =
    daysFromTo first (first + Z.of_nat n - 1) ++ daysFromTo (first + Z.of_nat n) last.
Proof.
  induction n as [|n IH]; intros first last H.
  - rewrite (daysFromTo_empty first (first + Z.of_nat 0 - 1)) by lia.
    simpl. f_equal. lia.
  - rewrite (daysFromTo_cons first last) by lia.
    rewrite (daysFromTo_cons first (first + Z.of_nat (S n) - 1)) by lia.
    rewrite (IH (first + 1) last) by lia.
    simpl. do 3 f_equal; lia.
Qed.

(** Every call of [tryDownloadingBill] logs its banner, passes over [n] days
    and then either throws the exhaustion error, or throws the [RangeError]
    of line 74 on a day whose date is an Invalid Date, or returns normally,
    on an authentication failure or on a saved document. *)
Lemma tryDownloadingBill_shape env self issuedDate dir opts t :
  let y := getFullYear issuedDate in
  let m := getMonth issuedDate in
  let first := effectiveStart opts in
  let last := effectiveStop opts in
  let days := daysFromTo first last in
  let req := fun d => buildRequest self (civilDate y m d) in
  let run := tryDownloadingBill env self issuedDate dir opts t in
  let start := [EvLog Blue (banner (format_MM_yyyy issuedDate))] in
  exists (n : nat) (pre : Trace),
    (saved pre = [] /\ filter is_banner pre = []) /\
    fetched pre = map req (firstn n days) /\
    (n <= List.length days)%nat /\
    (forall i reason, (i < n)%nat ->
       inTimeRange env y m (first + Z.of_nat i) = true /\
       probeAt env self issuedDate (count_fetches t + i) (first + Z.of_nat i)
       <> AuthenticationFailed reason) /\
    ((n = List.length days /\
      run = (Threw (JsError (exhausted_message (format_MM_yyyy issuedDate))),
             t ++ start ++ pre ++ [EvLog Red ("Operation failed." ++ nl)%string]))
     \/ (first + Z.of_nat n <= last /\
         inTimeRange env y m (first + Z.of_nat n) = false /\
         run = (Threw (JsRangeError invalid_time_message), t ++ start ++ pre))
     \/ (first + Z.of_nat n <= last /\
         inTimeRange env y m (first + Z.of_nat n) = true /\
         let date := civilDate y m (first + Z.of_nat n) in
         ((exists reason,
             probeAt env self issuedDate (count_fetches t + n) (first + Z.of_nat n)
             = AuthenticationFailed reason /\
             run = (Normal tt, t ++ start ++ pre ++ probing self date ++ [EvLog Red reason]))
          \/ (exists stream,
             probeAt env self issuedDate (count_fetches t + n) (first + Z.of_nat n)
             = DocumentFound stream /\
             run = (Normal tt,
                    t ++ start ++ pre ++ probing self date
                      ++ saving env self dir date stream None
                      ++ [EvLog Green ("Success!" ++ nl)%string]))))).
Proof.
  cbv zeta. rewrite tryDownloadingBill_run.
  set (t0 := t ++ [EvLog Blue (banner (format_MM_yyyy issuedDate))]).
  assert (Hc : count_fetches t0 = count_fetches t).
  { unfold t0. rewrite count_fetches_app, count_fetches_log. lia. }
  destruct (overDays_shape env self (getFullYear issuedDate) (getMonth issuedDate) dir
              (daysFromTo (effectiveStart opts) (effectiveStop opts)) t0)
    as [n [pre [Hclean [Hfetched [Hn [Hno Hend]]]]]].
  rewrite Hc in *.
  exists n, pre. split; [exact Hclean|]. split; [exact Hfetched|]. split; [exact Hn|].
  split.
  - intros i reason Hi. unfold probeAt.
    apply (Hno i (effectiveStart opts + Z.of_nat i) reason Hi).
    apply daysFromTo_nth. split; [reflexivity|].
    rewrite daysFromTo_length in Hn. lia.
  - destruct Hend as [[-> Hr] | [d [Hd Hr]]].
    + left. split; [reflexivity|]. rewrite Hr. unfold t0. now rewrite <- !app_assoc.
    + apply daysFromTo_nth in Hd. destruct Hd as [-> Hle].
      destruct Hr as [[Hinvalid Hr] | [Hvalid Hr]].
      * right; left. split; [exact Hle|]. split; [exact Hinvalid|].
        rewrite Hr. unfold t0. now rewrite <- !app_assoc.
      * right; right. split; [exact Hle|]. split; [exact Hvalid|].
        destruct Hr as [[reason [P Hr]] | [stream [P Hr]]];
          [left; exists reason | right; exists stream];
          (split; [exact P|]); rewrite Hr; unfold t0; now rewrite <- !app_assoc.
Qed.

(** The call never diverges, and when it throws, it throws the exhaustion
    error or the [RangeError] of line 74. *)
Lemma tryDownloadingBill_completion env self issuedDate dir opts t :
  fst (tryDownloadingBill env self issuedDate dir opts t) = Normal tt
  \/ fst (tryDownloadingBill env self issuedDate dir opts t)
     = Threw (JsError (exhausted_message (format_MM_yyyy issuedDate)))
  \/ fst (tryDownloadingBill env self issuedDate dir opts t)
     = Threw (JsRangeError invalid_time_message).
Proof.
  destruct (tryDownloadingBill_shape env self issuedDate dir opts t)
    as [n [pre [_ [_ [_ [_ [[_ ->] | [[_ [_ ->]] | [_ [_ [[r [_ ->]] | [s [_ ->]]]]]]]]]]]]];
    auto.
Qed.

Lemma fetched_log color text : fetched [EvLog color text] = [].
Proof. reflexivity. Qed.

Lemma fetched_probing self date : fetched (probing self date) = [buildRequest self date].
Proof. reflexivity. Qed.

Lemma fetched_saving env self dir date stream failure :
  fetched (saving env self dir date stream failure) = [].
Proof. reflexivity. Qed.

Lemma saved_log color text : saved [EvLog color text] = [].
Proof. reflexivity. Qed.

Lemma saved_probing self date : saved (probing self date) = [].
Proof. reflexivity. Qed.

Lemma saved_saving_ok env self dir date stream :
  saved (saving env self dir date stream None) = [(savePathOf env self dir date, stream)].
Proof. reflexivity. Qed.

Lemma saved_saving_failed env self dir date stream message :
  saved (saving env self dir date stream (Some message)) = [].
Proof. reflexivity. Qed.

Lemma filter_banner_log_plain text : filter is_banner [EvLog Plain text] = [].
Proof. reflexivity. Qed.

Lemma filter_banner_log_red text : filter is_banner [EvLog Red text] = [].
Proof. reflexivity. Qed.

Lemma filter_banner_log_green text : filter is_banner [EvLog Green text] = [].
Proof. reflexivity. Qed.

Lemma filter_banner_probing self date : filter is_banner (probing self date) = [].
Proof. reflexivity. Qed.

Lemma filter_banner_saving env self dir date stream failure :
  filter is_banner (saving env self dir date stream failure) = [].
Proof. reflexivity. Qed.

Lemma filter_banner_banner text :
  filter is_banner [EvLog Blue (banner text)] = [EvLog Blue (banner text)].
Proof. reflexivity. Qed.

Create Rewrite HintDb trace.
#[local] Hint Rewrite fetched_app fetched_log fetched_probing fetched_saving
  saved_app saved_log saved_probing saved_saving_ok saved_saving_failed
  filter_app filter_banner_log_plain filter_banner_log_red filter_banner_log_green
  filter_banner_probing filter_banner_saving filter_banner_banner
  app_nil_r app_nil_l length_app : trace.

Lemma firstn_snoc {A} (l : list A) (n : nat) (x : A) :
  nth_error l n = Some x -> firstn (S n) l = firstn n l ++ [x].
Proof.
  revert n; induction l as [|a l IH]; intros [|n] H; simpl in *; try discriminate.
  - now injection H as ->.
  - now rewrite (IH n H).
Qed.



Ltac analyse_run env self issuedDate dir opts t :=
  let n := fresh "n" in
  let pre := fresh "pre" in
  destruct (tryDownloadingBill_shape env self issuedDate dir opts t)
    as [n [pre [[Hsaved Hbanner] [Hfetched [Hn [Hno Hend]]]]]];
  cbv zeta in Hend;
  assert (Hlen : List.length (fetched pre) = n)
    by (rewrite Hfetched, length_map, length_firstn; lia);
  pose proof (fun i Hi => proj1 (Hno i EmptyString Hi)) as Hpassed;
  pose proof (fun i reason Hi => proj2 (Hno i reason Hi)) as Hnoauth;
  clear Hno; rename Hnoauth into Hno;
  destruct Hend as [[Hall Hrun]
                   | [[Hle [Hinvalid Hrun]]
                     | [Hle [Hvalid [[reason' [Hprobe' Hrun]] | [stream' [Hprobe' Hrun]]]]]]].

(** The requests of a call are those of the first [k] days of its window; of
    all its days when the call ends with the exhaustion error. *)
Lemma tryDownloadingBill_requests env self issuedDate dir opts t :
  let days := daysFromTo (effectiveStart opts) (effectiveStop opts) in
  let req := fun d =>
    buildRequest self (civilDate (getFullYear issuedDate) (getMonth issuedDate) d) in
  let run := tryDownloadingBill env self issuedDate dir opts t in
  exists delta k,
    snd run = t ++ delta /\
    fetched delta = map req (firstn k days) /\
    (fst run = Threw (JsError (exhausted_message (format_MM_yyyy issuedDate))) ->
     k = List.length days) /\
    (forall i, (i < k)%nat ->
       effectiveStart opts + Z.of_nat i <= effectiveStop opts /\
       inTimeRange env (getFullYear issuedDate) (getMonth issuedDate)
         (effectiveStart opts + Z.of_nat i) = true).
Proof.
  cbv zeta.
  analyse_run env self issuedDate dir opts t; rewrite Hrun; cbn [fst snd];
    pose proof Hn as Hn'; rewrite daysFromTo_length in Hn'.
  - eexists; exists n. split; [reflexivity|].
    split; [autorewrite with trace; exact Hfetched|].
    split; [intros _; exact Hall|].
    intros i Hi. split; [lia | now apply Hpassed].
  - eexists; exists n. split; [reflexivity|].
    split; [autorewrite with trace; exact Hfetched|].
    split; [discriminate|].
    intros i Hi. split; [lia | now apply Hpassed].
  - eexists; exists (S n). split; [reflexivity|]. split; [|split; [discriminate|]].
    + autorewrite with trace.
      rewrite (firstn_snoc _ n (effectiveStart opts + Z.of_nat n)), map_app, Hfetched;
        [reflexivity|].
      apply daysFromTo_nth. auto.
    + intros i Hi. split; [lia|].
      destruct (Nat.eq_dec i n) as [->|Hne]; [exact Hvalid | apply Hpassed; lia].
  - eexists; exists (S n). split; [reflexivity|]. split; [|split; [discriminate|]].
    + autorewrite with trace.
      rewrite (firstn_snoc _ n (effectiveStart opts + Z.of_nat n)), map_app, Hfetched;
        [reflexivity|].
      apply daysFromTo_nth. auto.
    + intros i Hi. split; [lia|].
      destruct (Nat.eq_dec i n) as [->|Hne]; [exact Hvalid | apply Hpassed; lia].
Qed.

(** C6: whatever bounds the caller supplies, negative or above 31 included,
    the loop runs between their clamps into [0,31]: every request of the call
    is for a day of that clamped window, taken in ascending order from its
    first day, and a call that ends with the exhaustion error has requested
    every day of it. *)
Theorem C6_window_is_clamped env self issuedDate dir (s e : Z) (t : Trace) :
  let days := daysFromTo (clamp s) (clamp e) in
  let req := fun d =>
    buildRequest self (civilDate (getFullYear issuedDate) (getMonth issuedDate) d) in
  let run := tryDownloadingBill env self issuedDate dir (window s e) t in
  effectiveStart (window s e) = clamp s
  /\ effectiveStop (window s e) = clamp e
  /\ 0 <= clamp s <= 31
  /\ 0 <= clamp e <= 31
  /\ exists delta k,
       snd run = t ++ delta /\
       fetched delta = map req (firstn k days) /\
       (fst run = Threw (JsError (exhausted_message (format_MM_yyyy issuedDate))) ->
        fetched delta = map req days).
Proof.
  cbv zeta.
  assert (Es : effectiveStart (window s e) = clamp s) by apply Math_min_max_clamp.
  assert (Ee : effectiveStop (window s e) = clamp e) by apply Math_min_max_clamp.
  split; [exact Es|]. split; [exact Ee|].
  split; [apply clamp_bounds|]. split; [apply clamp_bounds|].
  destruct (tryDownloadingBill_requests env self issuedDate dir (window s e) t)
    as [delta [k [Hdelta [Hreq [Hall _]]]]].
  rewrite Es, Ee in *.
  exists delta, k. split; [exact Hdelta|]. split; [exact Hreq|].
  intros Hex. rewrite Hreq, (Hall Hex), firstn_all. reflexivity.
Qed.

(** C1, amended: whenever a request of the call is classified as
    AuthenticationFailed, it is the last request of the call, nothing has
    been saved, the reason is logged and the call returns normally, as a
    successful call does; it does not throw the exhaustion error. *)
Theorem C1_authentication_failure_stops env self issuedDate dir opts (t delta : Trace)
    (i : nat) (reason : string) :
  let run := tryDownloadingBill env self issuedDate dir opts t in
  let day := effectiveStart opts + Z.of_nat i in
  snd run = t ++ delta ->
  (i < List.length (fetched delta))%nat ->
  probeAt env self issuedDate (count_fetches t + i) day = AuthenticationFailed reason ->
  List.length (fetched delta) = S i
  /\ saved delta = []
  /\ (exists before,
        delta = before ++
          [EvFetch (buildRequest self
                      (civilDate (getFullYear issuedDate) (getMonth issuedDate) day));
           EvLog Red reason])
  /\ fst run = Normal tt.
Proof.
  cbv zeta. intros Hdelta Hi Hprobe.
  analyse_run env self issuedDate dir opts t; rewrite Hrun in *; cbn [fst snd] in *;
    apply app_inv_head in Hdelta; subst delta;
    autorewrite with trace in Hi; cbn [List.length] in Hi.
  - exfalso. apply (Hno i reason); [lia | exact Hprobe].
  - exfalso. apply (Hno i reason); [lia | exact Hprobe].
  - assert (i = n).
    { destruct (Nat.eq_dec i n) as [E|E]; [exact E|].
      exfalso. apply (Hno i reason); [lia | exact Hprobe]. }
    subst i. rewrite Hprobe in Hprobe'. injection Hprobe' as <-.
    autorewrite with trace. cbn [List.length]. rewrite Hsaved.
    split; [lia|]. split; [reflexivity|]. split; [|reflexivity].
    eexists ([_] ++ pre ++ [_]). unfold probing.
    rewrite <- !app_assoc. reflexivity.
  - assert (i = n).
    { destruct (Nat.eq_dec i n) as [E|E]; [exact E|].
      exfalso. apply (Hno i reason); [lia | exact Hprobe]. }
    subst i. rewrite Hprobe in Hprobe'. discriminate.
Qed.

Lemma Date_copy_id (date : Date) : Date_copy date = date.
Proof. now destruct date. Qed.

Lemma savePathOf_billFileName env self dir date :
  savePathOf env self dir date =
  path_resolve env dir (billFileName (accountNumber self) date).
Proof. unfold savePathOf, billFileName. now rewrite Date_copy_id. Qed.

(** C9: every file the call saves is named [{accountId}-{yyyy-MM-dd}.pdf]
    under the save directory, where the date is the one of the request that
    produced the document (the last request of the call) and not the
    requested month; the name is [billFileName], a function of the account
    number and of that date alone. *)
Theorem C9_saved_file_name env self issuedDate dir opts (t delta : Trace)
    (path : string) (data : Body) :
  let run := tryDownloadingBill env self issuedDate dir opts t in
  snd run = t ++ delta ->
  In (path, data) (saved delta) ->
  exists i : nat,
    let day := effectiveStart opts + Z.of_nat i in
    let resolved := civilDate (getFullYear issuedDate) (getMonth issuedDate) day in
    day <= effectiveStop opts
    /\ List.length (fetched delta) = S i
    /\ nth_error (fetched delta) i = Some (buildRequest self resolved)
    /\ probeAt env self issuedDate (count_fetches t + i) day = DocumentFound data
    /\ path = path_resolve env dir (billFileName (accountNumber self) resolved)
    /\ billFileName (accountNumber self) resolved
       = (accountNumber self ++ "-" ++ format_yyyy_MM_dd resolved ++ ".pdf")%string
    /\ saved delta = [(path, data)]
    /\ fst run = Normal tt.
Proof.
  cbv zeta. intros Hdelta Hin.
  analyse_run env self issuedDate dir opts t; rewrite Hrun in *; cbn [fst snd] in *;
    apply app_inv_head in Hdelta; subst delta;
    autorewrite with trace in Hin; rewrite ?Hsaved in Hin; cbn [app In] in Hin;
    try contradiction.
  destruct Hin as [Hin|[]]. injection Hin as <- <-.
  exists n. autorewrite with trace. cbn [List.length]. rewrite Hsaved.
  split; [exact Hle|]. split; [lia|]. split.
  - rewrite nth_error_app2 by lia. rewrite Hlen, Nat.sub_diag. reflexivity.
  - split; [exact Hprobe'|]. split; [apply savePathOf_billFileName|].
    repeat split.
Qed.


(** ** The bulk operation *)

Lemma forMonths_run env self dir opts :
  forall months t,
    forMonths env self months dir opts t
    = (Normal tt, afterMonths env self months dir opts t)
    /\ exists delta,
         afterMonths env self months dir opts t = t ++ delta /\
         filter is_banner delta
         = map (fun month => EvLog Blue (banner (format_MM_yyyy month))) months.
Proof.
  induction months as [|month rest IH]; intros t.
  - split; [reflexivity|]. exists []. split; [now rewrite app_nil_r | reflexivity].
  - cbn [forMonths afterMonths fold_left]. unfold bind, try_catch.
    fold (afterMonths env self rest dir opts
            (snd (tryDownloadingBill env self month dir opts t))).
    analyse_run env self month dir opts t; rewrite Hrun; cbn [snd ret];
      match goal with
      | |- context [afterMonths _ _ _ _ _ ?t1] =>
          destruct (IH t1) as [Hfor [delta [Hafter Hbanners]]]
      end;
      (split; [exact Hfor|]); rewrite Hafter;
      eexists; (split; [rewrite <- !app_assoc; reflexivity|]);
      autorewrite with trace; rewrite Hbanner, Hbanners; reflexivity.
Qed.

(** The months of [eachMonthOfInterval]: the firsts of successive months,
    counted from the month of the earlier of the two dates and not beyond
    the month of the later one; the list is that sequence, reversed when the
    start of the interval is after its end. *)
Lemma Date_ltb_firstOfMonth (i j : Z) :
  i < j -> Date_ltb (firstOfMonth i) (firstOfMonth j) = true.
Proof.
  intros Hij. unfold Date_ltb, firstOfMonth. cbn [getFullYear getMonth getDate].
  pose proof (Z.div_le_mono i j 12 ltac:(lia) ltac:(lia)) as Hdiv.
  pose proof (Z.div_mod i 12 ltac:(lia)). pose proof (Z.div_mod j 12 ltac:(lia)).
  destruct (Z.ltb_spec (i / 12) (j / 12)) as [|Hge]; [reflexivity|].
  cbn [orb]. replace (i / 12 =? j / 12) with true by (symmetry; apply Z.eqb_eq; lia).
  cbn [andb]. replace (i mod 12 <? j mod 12) with true
    by (symmetry; apply Z.ltb_lt; lia).
  reflexivity.
Qed.

Lemma monthIndex_firstOfMonth (k : Z) : monthIndex (firstOfMonth k) = k.
Proof.
  unfold monthIndex, firstOfMonth. cbn [getFullYear getMonth].
  pose proof (Z.div_mod k 12 ltac:(lia)). lia.
Qed.

Lemma nth_error_takeWhile {A} (keep : A -> bool) :
  forall (l : list A) i a,
    nth_error (takeWhile keep l) i = Some a -> nth_error l i = Some a.
Proof.
  induction l as [|x rest IH]; intros i a Hnth.
  - destruct i; discriminate.
  - cbn [takeWhile] in Hnth. destruct (keep x).
    + destruct i as [|i]; [exact Hnth | now apply IH].
    + destruct i; discriminate.
Qed.

Lemma nth_error_monthIndexes (first last : Z) (i : nat) (k : Z) :
  nth_error (monthIndexes first last) i = Some k ->
  k = first + Z.of_nat i /\ k <= last.
Proof.
  unfold monthIndexes. rewrite nth_error_map. intros Hnth.
  destruct (nth_error (seq 0 _) i) as [n|] eqn:Hseq; [|discriminate].
  injection Hnth as <-.
  assert (Hlen : (i < List.length (seq 0 (Z.to_nat (last - first + 1))))%nat)
    by (apply nth_error_Some; congruence).
  rewrite length_seq in Hlen.
  rewrite (nth_error_nth' _ 0%nat) in Hseq by (now rewrite length_seq).
  rewrite seq_nth in Hseq by exact Hlen. injection Hseq as <-. lia.
Qed.

Lemma eachMonthOfInterval_order env (from to : Date) :
  let earlier := if Date_ltb to from then to else from in
  let later := if Date_ltb to from then from else to in
  exists dates,
    eachMonthOfInterval env from to = (if Date_ltb to from then rev dates else dates)
    /\ forall i a, nth_error dates i = Some a ->
         a = firstOfMonth (monthIndex earlier + Z.of_nat i)
         /\ monthIndex earlier + Z.of_nat i <= monthIndex later.
Proof.
  cbv zeta. unfold eachMonthOfInterval.
  set (earlier := if Date_ltb to from then to else from).
  set (later := if Date_ltb to from then from else to).
  match goal with
  | |- context [if Date_ltb to from then rev ?l else ?l] => exists l
  end.
  split; [reflexivity|]. intros i a Hnth.
  destruct (inTimeRangeDay env _); [|destruct i; discriminate].
  apply nth_error_takeWhile in Hnth. rewrite nth_error_map in Hnth.
  destruct (nth_error (monthIndexes _ _) i) as [k|] eqn:Hk; [|discriminate].
  injection Hnth as <-. apply nth_error_monthIndexes in Hk.
  destruct Hk as [-> Hle]. split; [reflexivity | exact Hle].
Qed.

(** C3, amended: for every interval, [tryBulkDownload] returns normally, and
    it has called [tryDownloadingBill] once for each month that
    [eachMonthOfInterval] lists, in the order of that list, each call
    starting where the preceding one stopped, however that one ended.  The
    listed months are firsts of months between the months of the two dates;
    they are in chronological order when [from] is not after [to], and in
    reverse chronological order when [from] is after [to]. *)
Theorem C3_bulk_attempts_every_month env self (from to : Date) (dir : string)
    (opts : option OptionsArg) (t : Trace) :
  let months := eachMonthOfInterval env from to in
  let earlier := if Date_ltb to from then to else from in
  let later := if Date_ltb to from then from else to in
  let run := tryBulkDownload env self from to dir opts t in
  fst run = Normal tt
  /\ snd run =
     fold_left (fun t' month => snd (tryDownloadingBill env self month dir opts t'))
               months t
  /\ (exists delta,
       snd run = t ++ delta /\
       filter is_banner delta
       = map (fun month => EvLog Blue (banner (format_MM_yyyy month))) months)
  /\ chronological (if Date_ltb to from then rev months else months)
  /\ (forall month, In month months ->
        getDate month = 1
        /\ 0 <= getMonth month <= 11
        /\ monthIndex earlier <= monthIndex month <= monthIndex later).
Proof.
  cbv zeta. unfold tryBulkDownload.
  destruct (forMonths_run env self dir opts (eachMonthOfInterval env from to) t)
    as [-> Hafter].
  cbn [fst snd]. split; [reflexivity|]. split; [reflexivity|]. split; [exact Hafter|].
  destruct (eachMonthOfInterval_order env from to) as [dates [-> Hdates]].
  assert (Hsame : (if Date_ltb to from then rev (if Date_ltb to from then rev dates else dates)
                   else (if Date_ltb to from then rev dates else dates)) = dates)
    by (destruct (Date_ltb to from); [apply rev_involutive | reflexivity]).
  rewrite Hsame. split.
  - intros i j a b Hij Ha Hb.
    destruct (Hdates i a Ha) as [-> _]. destruct (Hdates j b Hb) as [-> _].
    apply Date_ltb_firstOfMonth. lia.
  - intros month Hin.
    assert (Hin' : In month dates)
      by (destruct (Date_ltb to from); [now apply in_rev | exact Hin]).
    apply In_nth_error in Hin'. destruct Hin' as [i Hi].
    destruct (Hdates i month Hi) as [-> Hle].
    rewrite monthIndex_firstOfMonth. unfold firstOfMonth. cbn [getDate getMonth].
    pose proof (Z.mod_pos_bound (monthIndex (if Date_ltb to from then to else from)
                                   + Z.of_nat i) 12 ltac:(lia)).
    repeat split; lia.
Qed.

(** The claim that the months are attempted in chronological order fails for
    an interval whose start is after its end: from May 2024 back to March
    2024 the months are attempted as May, April, March. *)
Lemma C3_reversed_interval_runs_backwards :
  let months := eachMonthOfInterval portalEmpty may2024 march2024 in
  let run := tryBulkDownload portalEmpty sampleDownloader may2024 march2024
               "/bills" None [] in
  months = [may2024; april2024; march2024]
  /\ ~ chronological months
  /\ fst run = Normal tt
  /\ filter is_banner (snd run)
     = [EvLog Blue (banner "05/2024"); EvLog Blue (banner "04/2024");
        EvLog Blue (banner "03/2024")].
Proof.
  cbv zeta. split; [reflexivity|]. split.
  - intros Horder.
    specialize (Horder 0%nat 1%nat may2024 april2024 ltac:(lia) eq_refl eq_refl).
    discriminate.
  - split; reflexivity.
Qed.

(** ** Runs that begin with days without a bill *)

Lemma fetched_flat_probing self (f : Z -> Date) (days : list Z) :
  fetched (flat_map (fun d => probing self (f d)) days)
  = map (fun d => buildRequest self (f d)) days.
Proof.
  induction days as [|d days IH]; [reflexivity|].
  cbn [flat_map map]. rewrite fetched_app, fetched_probing, IH. reflexivity.
Qed.

Lemma saved_flat_probing self (f : Z -> Date) (days : list Z) :
  saved (flat_map (fun d => probing self (f d)) days) = [].
Proof.
  induction days as [|d days IH]; [reflexivity|].
  cbn [flat_map]. rewrite saved_app, saved_probing, IH. reflexivity.
Qed.

Lemma count_writes_flat_probing self (f : Z -> Date) (days : list Z) :
  count_writes (flat_map (fun d => probing self (f d)) days) = 0%nat.
Proof.
  induction days as [|d days IH]; [reflexivity|].
  cbn [flat_map]. rewrite count_writes_app, IH. reflexivity.
Qed.

Lemma passedOver_counts self y m first n :
  count_fetches (passedOver self y m first n) = n
  /\ count_writes (passedOver self y m first n) = 0%nat
  /\ saved (passedOver self y m first n) = []
  /\ List.length (fetched (passedOver self y m first n)) = n.
Proof.
  unfold passedOver.
  rewrite count_fetches_fetched, fetched_flat_probing, length_map, daysFromTo_length,
    count_writes_flat_probing, saved_flat_probing.
  repeat split; lia.
Qed.

(** When the first [n] days of the window are NotFound, the call comes to
    the turn of day [first + n] having logged and requested just those. *)
Lemma tryDownloadingBill_reach env self issuedDate dir opts t (n : nat) :
  let y := getFullYear issuedDate in
  let m := getMonth issuedDate in
  let first := effectiveStart opts in
  let last := effectiveStop opts in
  first + Z.of_nat n <= last + 1 ->
  (forall i, (i < n)%nat ->
     holdsTime env issuedDate (first + Z.of_nat i) /\
     probeAt env self issuedDate (count_fetches t + i) (first + Z.of_nat i) = NotFound) ->
  tryDownloadingBill env self issuedDate dir opts t =
  match overDays env self y m dir (daysFromTo (first + Z.of_nat n) last)
          (t ++ [EvLog Blue (banner (format_MM_yyyy issuedDate))]
             ++ passedOver self y m first n) with
  | (Normal Returned, t') => (Normal tt, t')
  | (Normal RanOut, t') =>
      (Threw (JsError (exhausted_message (format_MM_yyyy issuedDate))),
       t' ++ [EvLog Red ("Operation failed." ++ nl)%string])
  | (Threw error, t') => (Threw error, t')
  | (Diverged, t') => (Diverged, t')
  end.
Proof.
  cbv zeta. intros Hn Hskip.
  rewrite tryDownloadingBill_run.
  rewrite (daysFromTo_app n (effectiveStart opts) (effectiveStop opts) Hn).
  rewrite overDays_skip.
  - unfold passedOver. now rewrite <- app_assoc.
  - intros i d Hd. apply daysFromTo_nth in Hd. destruct Hd as [-> Hi].
    rewrite count_fetches_app, count_fetches_log, Nat.add_0_r.
    destruct (Hskip i) as [Hholds Hnone]; [lia|].
    split; [now apply holdsTime_inTimeRange | exact Hnone].
Qed.

(** C4, amended: when the first [n] candidate days are probed and NotFound,
    the next one is probed and DocumentFound (the dates of these days hold a
    time value, or they would not be probed) and the write of that document
    succeeds, the call makes exactly [n + 1] requests, writes exactly one
    file, the document of that day under that day's resolved date, and
    returns normally; the write and the success line are the last events of
    the call. *)
Theorem C4_first_document_wins env self issuedDate dir opts (t : Trace)
    (n : nat) (stream : Body) :
  let y := getFullYear issuedDate in
  let m := getMonth issuedDate in
  let first := effectiveStart opts in
  let resolved := civilDate y m (first + Z.of_nat n) in
  let path := path_resolve env dir (billFileName (accountNumber self) resolved) in
  first + Z.of_nat n <= effectiveStop opts ->
  (forall i, (i < n)%nat ->
     holdsTime env issuedDate (first + Z.of_nat i) /\
     probeAt env self issuedDate (count_fetches t + i) (first + Z.of_nat i) = NotFound) ->
  holdsTime env issuedDate (first + Z.of_nat n) ->
  probeAt env self issuedDate (count_fetches t + n) (first + Z.of_nat n)
  = DocumentFound stream ->
  writeFile env (count_writes t) path stream = None ->
  exists delta,
    tryDownloadingBill env self issuedDate dir opts t = (Normal tt, t ++ delta)
    /\ List.length (fetched delta) = S n
    /\ count_writes delta = 1%nat
    /\ saved delta = [(path, stream)]
    /\ exists before,
         delta = before ++
           [EvFetch (buildRequest self resolved);
            EvLog Blue "Bill found! Saving PDF to disk.";
            EvWriteFile path stream None;
            EvLog Green ("Success!" ++ nl)%string].
Proof.
  cbv zeta. intros Hn Hskip Hholds Hfound Hwrite.
  apply holdsTime_inTimeRange in Hholds.
  rewrite (tryDownloadingBill_reach env self issuedDate dir opts t n) by (auto; lia).
  rewrite (daysFromTo_cons _ _ Hn).
  set (y := getFullYear issuedDate) in *. set (m := getMonth issuedDate) in *.
  set (first := effectiveStart opts) in *.
  destruct (passedOver_counts self y m first n) as [Cf [Cw [Cs Cl]]].
  set (t0 := t ++ [EvLog Blue (banner (format_MM_yyyy issuedDate))]
               ++ passedOver self y m first n).
  assert (Hcf : count_fetches t0 = (count_fetches t + n)%nat).
  { unfold t0. rewrite !count_fetches_app, count_fetches_log, Cf. lia. }
  assert (Hcw : count_writes t0 = count_writes t).
  { unfold t0. rewrite !count_writes_app, count_writes_log, Cw. lia. }
  unfold probeAt in Hfound. fold y m first in Hfound, Hwrite.
  rewrite <- savePathOf_billFileName in *.
  destruct (overDays_cons env self y m dir (first + Z.of_nat n)
              (daysFromTo (first + Z.of_nat n + 1) (effectiveStop opts)) t0 Hholds)
    as [[E _] | [[reason [E _]] | [[s [E [Hw ->]]] | [s [msg [E [Hw _]]]]]]];
    rewrite Hcf in E; rewrite ?Hcw in *; try congruence.
  - assert (s = stream) by congruence. subst s.
    eexists. split; [unfold t0; rewrite <- !app_assoc; reflexivity|].
    autorewrite with trace. rewrite Cl, Cs.
    rewrite !count_writes_app, Cw, count_writes_log.
    cbn [List.length app]. split; [lia|]. split; [reflexivity|].
    split; [reflexivity|].
    eexists ([_] ++ passedOver self y m first n ++ [_]).
    unfold probing, saving. rewrite <- !app_assoc. reflexivity.
Qed.


(** ** Concrete runs *)

(** With the default window 14..20 of March 2024, a login page in answer to
    the second request ends the call after two requests, with nothing saved
    and a normal return. *)
Lemma C1_authentication_failure_stops_witness :
  probeAt portalAuthSecond sampleDownloader march2024 1 15
  = AuthenticationFailed auth_message
  /\ List.length (fetched (snd (tryDownloadingBill portalAuthSecond sampleDownloader
                                  march2024 "/bills" None []))) = 2%nat
  /\ saved (snd (tryDownloadingBill portalAuthSecond sampleDownloader
                   march2024 "/bills" None [])) = []
  /\ fst (tryDownloadingBill portalAuthSecond sampleDownloader march2024 "/bills" None [])
     = Normal tt.
Proof.
  split; [reflexivity|].
  destruct (C1_authentication_failure_stops portalAuthSecond sampleDownloader march2024
              "/bills" None []
              (snd (tryDownloadingBill portalAuthSecond sampleDownloader march2024
                      "/bills" None []))
              1 auth_message)
    as [H1 [H2 [_ H3]]].
  - reflexivity.
  - vm_compute. lia.
  - reflexivity.
  - auto.
Defined.

(** The claim that the caller can tell an authentication failure from a
    success fails: the call that stops on the login page and the call that
    saves a bill complete in the same way. *)
Lemma C1_authentication_failure_completes_like_success :
  probeAt portalAuthSecond sampleDownloader march2024 1 15
  = AuthenticationFailed auth_message
  /\ saved (snd (tryDownloadingBill portalAuthSecond sampleDownloader
                   march2024 "/bills" None [])) = []
  /\ saved (snd (tryDownloadingBill portalFoundSecond sampleDownloader
                   march2024 "/bills" None []))
     = [("/bills/12349780000-2024-03-15.pdf"%string, sampleBill)]
  /\ fst (tryDownloadingBill portalAuthSecond sampleDownloader march2024 "/bills" None [])
     = fst (tryDownloadingBill portalFoundSecond sampleDownloader march2024 "/bills" None []).
Proof. repeat split. Qed.



(** A bill in answer to the second request of the default window. *)
Lemma C4_first_document_wins_witness :
  exists delta,
    tryDownloadingBill portalFoundSecond sampleDownloader march2024 "/bills" None []
    = (Normal tt, delta)
    /\ List.length (fetched delta) = 2%nat
    /\ saved delta = [("/bills/12349780000-2024-03-15.pdf"%string, sampleBill)].
Proof.
  destruct (C4_first_document_wins portalFoundSecond sampleDownloader march2024
              "/bills" None [] 1 sampleBill)
    as [delta [H1 [H2 [_ [H4 _]]]]].
  - vm_compute. discriminate.
  - intros i Hi. assert (i = 0%nat) by lia. subst i.
    split; [vm_compute; discriminate | reflexivity].
  - vm_compute. discriminate.
  - reflexivity.
  - reflexivity.
  - exists delta. auto.
Defined.

(** The claim fails when the write fails: the first candidate day is the
    first (and only) one to yield DocumentFound, yet seven requests are made,
    no document is saved and the call fails. *)
Lemma C4_probing_continues_after_failed_write :
  probeAt portalWriteFails sampleDownloader march2024 0 14 = DocumentFound sampleBill
  /\ (forall i, (0 < i < 7)%nat ->
        probeAt portalWriteFails sampleDownloader march2024 i (14 + Z.of_nat i) = NotFound)
  /\ List.length (fetched (snd (tryDownloadingBill portalWriteFails sampleDownloader
                                  march2024 "/bills" None []))) = 7%nat
  /\ saved (snd (tryDownloadingBill portalWriteFails sampleDownloader
                   march2024 "/bills" None [])) = []
  /\ fst (tryDownloadingBill portalWriteFails sampleDownloader march2024 "/bills" None [])
     = Threw (JsError "Unable to find and/or download a bill for the month of 03/2024").
Proof.
  split; [reflexivity|]. split; [|repeat split].
  intros i Hi.
  do 7 (destruct i as [|i]; [try lia; reflexivity|]). lia.
Qed.



(** The file saved for March 2024 when the bill is dated the 15th. *)
Lemma C9_saved_file_name_witness :
  exists i : nat,
    14 + Z.of_nat i = 15
    /\ billFileName (accountNumber sampleDownloader) (civilDate 2024 2 (14 + Z.of_nat i))
       = "12349780000-2024-03-15.pdf"%string
    /\ saved (snd (tryDownloadingBill portalFoundSecond sampleDownloader march2024
                     "/bills" None []))
       = [("/bills/12349780000-2024-03-15.pdf"%string, sampleBill)].
Proof.
  destruct (C9_saved_file_name portalFoundSecond sampleDownloader march2024 "/bills"
              None []
              (snd (tryDownloadingBill portalFoundSecond sampleDownloader march2024
                      "/bills" None []))
              "/bills/12349780000-2024-03-15.pdf" sampleBill)
    as [i [_ [Hlen [_ [_ [_ [_ [Hsaved _]]]]]]]].
  - reflexivity.
  - vm_compute. auto.
  - exists i. vm_compute in Hlen. injection Hlen as <-.
    split; [reflexivity|]. split; [reflexivity | exact Hsaved].
Defined.

(** ** The scenarios of the specification *)

(** Window 14..20, NotFound for days 14 to 17 and a bill on day 18: five
    requests, the file carries the date of day 18, normal return. *)
Example scenario_bill_on_day_18 :
  let run := tryDownloadingBill
               (scripted [noBill; noBill; noBill; noBill; pdf sampleBill] [])
               sampleDownloader march2024 "/bills" (window 14 20) [] in
  fst run = Normal tt
  /\ List.length (fetched (snd run)) = 5%nat
  /\ saved (snd run) = [("/bills/12349780000-2024-03-18.pdf"%string, sampleBill)].
Proof. repeat split. Qed.

(** Window 14..20 and no bill at all: seven requests, then the exhaustion
    error. *)
Example scenario_no_bill_in_window :
  let run := tryDownloadingBill portalEmpty sampleDownloader march2024 "/bills"
               (window 14 20) [] in
  fst run = Threw (JsError "Unable to find and/or download a bill for the month of 03/2024")
  /\ List.length (fetched (snd run)) = 7%nat
  /\ saved (snd run) = [].
Proof. repeat split. Qed.

(** Three months with the window 15..16: the first month finds its bill on
    the 16th, the second stops on the login page, the third is still tried
    and finds its bill on the 15th. *)
Example scenario_bulk_of_three_months :
  let run := tryBulkDownload
               (scripted [noBill; pdf sampleBill; loginPage; pdf sampleBill] [])
               sampleDownloader march2024 may2024 "/bills" (window 15 16) [] in
  fst run = Normal tt
  /\ List.length (filter is_banner (snd run)) = 3%nat
  /\ List.length (fetched (snd run)) = 4%nat
  /\ saved (snd run) = [("/bills/12349780000-2024-03-16.pdf"%string, sampleBill);
                        ("/bills/12349780000-2024-05-15.pdf"%string, sampleBill)].
Proof. repeat split. Qed.

(** September 275760, window 12..20, a host on UTC: the bill of day 12 is
    found and its write fails, day 13 has no bill, and the Date of day 14 is
    an Invalid Date: the call ends with the [RangeError] of line 74 after two
    requests, neither with the error of the write nor with the exhaustion
    error. *)
Example scenario_failed_write_before_invalid_date :
  let run := tryDownloadingBill portalWriteFails sampleDownloader (mkDate 275760 8 1)
               "/bills" (window 12 20) [] in
  Date_new portalWriteFails 275760 8 13 = ValidDate (mkDate 275760 8 13)
  /\ Date_new portalWriteFails 275760 8 14 = InvalidDate
  /\ fst run = Threw (JsRangeError "Invalid time value")
  /\ map requestUrl (fetched (snd run))
     = ["https://customerportal.southerncompany.com/Billing/ViewBill?BillDate=09/12/275760&BillId=98567123467&BillRoutingNum=1"%string;
        "https://customerportal.southerncompany.com/Billing/ViewBill?BillDate=09/13/275760&BillId=98567123467&BillRoutingNum=1"%string]
  /\ count_writes (snd run) = 1%nat
  /\ saved (snd run) = [].
Proof. repeat split. Qed.

(** * Further properties of the code *)

(** ** What a completion of [tryDownloadingBill] tells the caller *)

Lemma firstn_daysFromTo (n : nat) (first last : Z) :
  first + Z.of_nat n <= last + 1 ->
  firstn n (daysFromTo first last) = daysFromTo first (first + Z.of_nat n - 1).
Proof.
  intros Hn. rewrite (daysFromTo_app n first last Hn).
  replace n with (List.length (daysFromTo first (first + Z.of_nat n - 1))) at 1
    by (rewrite daysFromTo_length; lia).
  rewrite firstn_app, Nat.sub_diag, firstn_all. cbn [firstn]. now rewrite app_nil_r.
Qed.

(** X1: [tryDownloadingBill] throws one of two errors only, and in both
    cases no request was classified AuthenticationFailed and nothing was
    saved.  Either it is the exhaustion error of the searched month: then
    every day of the window has been requested and the last event is the
    line [Operation failed.].  Or it is the [RangeError] that [format]
    throws at line 74 for a candidate day whose Date is an Invalid Date: then
    the days before that one, whose dates hold a time value, are the days
    that have been requested. *)
Theorem X1_throw_means_exhausted_or_invalid_date env self issuedDate dir opts
    (t delta : Trace) (error : JsValue) :
  let run := tryDownloadingBill env self issuedDate dir opts t in
  let first := effectiveStart opts in
  let req := fun d =>
    buildRequest self (civilDate (getFullYear issuedDate) (getMonth issuedDate) d) in
  snd run = t ++ delta ->
  fst run = Threw error ->
  saved delta = []
  /\ (forall i reason, (i < List.length (fetched delta))%nat ->
        probeAt env self issuedDate (count_fetches t + i) (first + Z.of_nat i)
        <> AuthenticationFailed reason)
  /\ ((error = JsError (exhausted_message (format_MM_yyyy issuedDate))
       /\ fetched delta = map req (daysFromTo first (effectiveStop opts))
       /\ List.length (fetched delta) = windowSize opts
       /\ exists before, delta = before ++ [EvLog Red ("Operation failed." ++ nl)%string])
      \/ (error = JsRangeError invalid_time_message
          /\ exists n : nat,
               first + Z.of_nat n <= effectiveStop opts
               /\ ~ holdsTime env issuedDate (first + Z.of_nat n)
               /\ (forall i, (i < n)%nat -> holdsTime env issuedDate (first + Z.of_nat i))
               /\ fetched delta = map req (daysFromTo first (first + Z.of_nat n - 1))
               /\ List.length (fetched delta) = n)).
Proof.
  cbv zeta. intros Hdelta Hthrew.
  analyse_run env self issuedDate dir opts t; rewrite Hrun in *; cbn [fst snd] in *;
    try discriminate; apply app_inv_head in Hdelta; subst delta;
    injection Hthrew as <-; autorewrite with trace; rewrite Hsaved, Hlen;
    cbn [List.length app].
  - assert (Hsize : n = windowSize opts).
    { rewrite Hall. unfold windowSize. apply daysFromTo_length. }
    split; [reflexivity|].
    split; [intros i reason Hi; apply Hno; lia|].
    left. split; [reflexivity|].
    split; [now rewrite Hfetched, Hall, firstn_all|].
    split; [lia|].
    eexists ([_] ++ pre). now rewrite <- app_assoc.
  - split; [reflexivity|].
    split; [intros i reason Hi; apply Hno; lia|].
    right. split; [reflexivity|]. exists n.
    split; [exact Hle|].
    split; [now apply not_holdsTime_inTimeRange|].
    split; [intros i Hi; apply holdsTime_inTimeRange; now apply Hpassed|].
    split; [|lia].
    rewrite Hfetched, firstn_daysFromTo by lia. reflexivity.
Qed.

Lemma X1_throw_means_exhausted_or_invalid_date_witness :
  fst (tryDownloadingBill portalEmpty sampleDownloader (mkDate 275760 8 1) "/bills"
         (window 12 20) [])
  = Threw (JsRangeError "Invalid time value")
  /\ saved (snd (tryDownloadingBill portalEmpty sampleDownloader (mkDate 275760 8 1)
                   "/bills" (window 12 20) [])) = [].
Proof.
  destruct (X1_throw_means_exhausted_or_invalid_date portalEmpty sampleDownloader
              (mkDate 275760 8 1) "/bills" (window 12 20) []
              (snd (tryDownloadingBill portalEmpty sampleDownloader (mkDate 275760 8 1)
                      "/bills" (window 12 20) []))
              (JsRangeError "Invalid time value"))
    as [Hsaved _].
  - reflexivity.
  - reflexivity.
  - split; [reflexivity | exact Hsaved].
Defined.

(** X2: when [tryDownloadingBill] returns normally, it has made at least one
    request and the last one decides: either it was classified
    AuthenticationFailed and nothing was saved, or it was classified
    DocumentFound and exactly that document was saved under that day's name.
    So a normal return with no file saved is an authentication failure. *)
Theorem X2_normal_return_means_saved_or_auth env self issuedDate dir opts
    (t delta : Trace) :
  let run := tryDownloadingBill env self issuedDate dir opts t in
  let first := effectiveStart opts in
  snd run = t ++ delta ->
  fst run = Normal tt ->
  exists i : nat,
    let day := first + Z.of_nat i in
    let date := civilDate (getFullYear issuedDate) (getMonth issuedDate) day in
    List.length (fetched delta) = S i
    /\ day <= effectiveStop opts
    /\ ((exists reason,
           probeAt env self issuedDate (count_fetches t + i) day
           = AuthenticationFailed reason
           /\ saved delta = [])
        \/ (exists stream,
           probeAt env self issuedDate (count_fetches t + i) day = DocumentFound stream
           /\ saved delta = [(savePathOf env self dir date, stream)])).
Proof.
  cbv zeta. intros Hdelta Hnormal.
  analyse_run env self issuedDate dir opts t; rewrite Hrun in *; cbn [fst snd] in *;
    try discriminate; apply app_inv_head in Hdelta; subst delta; exists n;
    autorewrite with trace; rewrite Hsaved, Hlen; cbn [List.length app];
    (split; [lia|]); (split; [exact Hle|]).
  - left. exists reason'. auto.
  - right. exists stream'. auto.
Qed.

Lemma X2_normal_return_means_saved_or_auth_witness :
  fst (tryDownloadingBill portalLoggedOut sampleDownloader march2024 "/bills" None [])
  = Normal tt
  /\ exists i : nat,
       List.length (fetched (snd (tryDownloadingBill portalLoggedOut sampleDownloader
                                    march2024 "/bills" None []))) = S i.
Proof.
  split; [reflexivity|].
  destruct (X2_normal_return_means_saved_or_auth portalLoggedOut sampleDownloader
              march2024 "/bills" None []
              (snd (tryDownloadingBill portalLoggedOut sampleDownloader march2024
                      "/bills" None [])))
    as [i [Hlen _]].
  - reflexivity.
  - reflexivity.
  - exists i. exact Hlen.
Defined.

(** The bounds of one call: requests within the window, a window of at most
    32 days, at most one file saved. *)
Lemma tryDownloadingBill_bounds env self issuedDate dir opts (t : Trace) :
  exists delta,
    snd (tryDownloadingBill env self issuedDate dir opts t) = t ++ delta
    /\ (List.length (fetched delta) <= windowSize opts)%nat
    /\ (windowSize opts <= 32)%nat
    /\ (List.length (saved delta) <= 1)%nat.
Proof.
  pose proof (effectiveStart_bounds opts) as Hs.
  pose proof (effectiveStop_bounds opts) as He.
  assert (Hsize : (windowSize opts <= 32)%nat) by (unfold windowSize; lia).
  analyse_run env self issuedDate dir opts t; rewrite Hrun; cbn [snd];
    rewrite daysFromTo_length in *; fold (windowSize opts) in *;
    eexists; (split; [reflexivity|]); autorewrite with trace;
    rewrite Hsaved, Hlen; cbn [List.length app];
    (split; [|split; [exact Hsize|lia]]); unfold windowSize in *; lia.
Qed.

(** X3: a call never makes more requests than its clamped window has days,
    hence never more than 32, and it saves at most one file. *)
Theorem X3_at_most_one_request_per_day env self issuedDate dir opts (t : Trace) :
  exists delta,
    snd (tryDownloadingBill env self issuedDate dir opts t) = t ++ delta
    /\ (List.length (fetched delta) <= windowSize opts)%nat
    /\ (windowSize opts <= 32)%nat
    /\ (List.length (saved delta) <= 1)%nat.
Proof. exact (tryDownloadingBill_bounds env self issuedDate dir opts t). Qed.

(** ** What is written to disk *)

Lemma in_probing_not_write self date path data failure :
  ~ In (EvWriteFile path data failure) (probing self date).
Proof. unfold probing. simpl. intros [H|[H|[]]]; discriminate. Qed.

Lemma in_saving_write env self dir date stream failure path data failure' :
  In (EvWriteFile path data failure') (saving env self dir date stream failure) ->
  path = savePathOf env self dir date /\ data = stream /\ failure' = failure.
Proof.
  unfold saving. simpl. intros [H|[H|[]]]; [discriminate|].
  injection H as <- <- <-. auto.
Qed.

(** Every write of the loop, failed or not, is the write of a document that
    the request of its day produced, under the name of that day. *)
Lemma overDays_writes env self y m dir :
  forall days t,
  exists delta,
    snd (overDays env self y m dir days t) = t ++ delta /\
    forall path data failure,
      In (EvWriteFile path data failure) delta ->
      exists i d,
        nth_error days i = Some d
        /\ (i < List.length (fetched delta))%nat
        /\ path = savePathOf env self dir (civilDate y m d)
        /\ probeOutcome (fetch env (count_fetches t + i)
                           (buildRequest self (civilDate y m d)))
           = DocumentFound data.
Proof.
  induction days as [|day rest IH]; intros t.
  - exists []. split; [simpl; now rewrite app_nil_r|]. intros path data failure [].
  - destruct (inTimeRange env y m day) eqn:Hvalid.
    2:{ rewrite (overDays_invalid env self y m dir day rest t Hvalid). cbn [snd].
        exists []. split; [now rewrite app_nil_r|]. intros path data failure []. }
    destruct (overDays_cons env self y m dir day rest t Hvalid)
      as [[E ->] | [[reason [E ->]] | [[stream [E [Hw ->]]] | [stream [message [E [Hw ->]]]]]]].
    + destruct (IH (t ++ probing self (civilDate y m day))) as [delta [-> Hwrites]].
      exists (probing self (civilDate y m day) ++ delta).
      split; [now rewrite app_assoc|].
      intros path data failure Hin. apply in_app_or in Hin.
      destruct Hin as [Hin|Hin]; [now apply in_probing_not_write in Hin|].
      destruct (Hwrites path data failure Hin) as [i [d [Hd [Hi [Hp Ho]]]]].
      exists (S i), d. split; [exact Hd|].
      split; [autorewrite with trace; cbn [List.length]; lia|].
      split; [exact Hp|].
      rewrite count_fetches_app, count_fetches_probing in Ho.
      now replace (count_fetches t + S i)%nat with (count_fetches t + 1 + i)%nat by lia.
    + cbn [snd]. eexists. split; [reflexivity|].
      intros path data failure Hin. apply in_app_or in Hin.
      destruct Hin as [Hin|[Hin|[]]]; [now apply in_probing_not_write in Hin|discriminate].
    + cbn [snd]. eexists. split; [reflexivity|].
      intros path data failure Hin. apply in_app_or in Hin.
      destruct Hin as [Hin|Hin]; [now apply in_probing_not_write in Hin|].
      apply in_app_or in Hin. destruct Hin as [Hin|[Hin|[]]]; [|discriminate].
      apply in_saving_write in Hin. destruct Hin as [-> [-> _]].
      exists O, day. rewrite Nat.add_0_r.
      split; [reflexivity|].
      split; [autorewrite with trace; cbn [List.length]; lia|]. auto.
    + set (turn := probing self (civilDate y m day)
                   ++ saving env self dir (civilDate y m day) stream (Some message)).
      destruct (IH (t ++ turn)) as [delta [-> Hwrites]].
      exists (turn ++ delta). split; [now rewrite app_assoc|].
      intros path data failure Hin. apply in_app_or in Hin.
      destruct Hin as [Hin|Hin].
      * unfold turn in Hin. apply in_app_or in Hin.
        destruct Hin as [Hin|Hin]; [now apply in_probing_not_write in Hin|].
        apply in_saving_write in Hin. destruct Hin as [-> [-> _]].
        exists O, day. rewrite Nat.add_0_r.
        split; [reflexivity|].
        split; [unfold turn; autorewrite with trace; cbn [List.length]; lia|]. auto.
      * destruct (Hwrites path data failure Hin) as [i [d [Hd [Hi [Hp Ho]]]]].
        exists (S i), d. split; [exact Hd|].
        split; [unfold turn; autorewrite with trace; cbn [List.length]; lia|].
        split; [exact Hp|].
        unfold turn in Ho.
        rewrite !count_fetches_app, count_fetches_probing, count_fetches_saving in Ho.
        now replace (count_fetches t + S i)%nat
          with (count_fetches t + (1 + 0) + i)%nat by lia.
Qed.

(** The trace of a call is the banner, the trace of its loop and, on
    exhaustion, the line [Operation failed.]. *)
Lemma tryDownloadingBill_trace env self issuedDate dir opts t :
  exists tail,
    snd (tryDownloadingBill env self issuedDate dir opts t)
    = snd (overDays env self (getFullYear issuedDate) (getMonth issuedDate) dir
             (daysFromTo (effectiveStart opts) (effectiveStop opts))
             (t ++ [EvLog Blue (banner (format_MM_yyyy issuedDate))])) ++ tail
    /\ (tail = [] \/ tail = [EvLog Red ("Operation failed." ++ nl)%string]).
Proof.
  rewrite tryDownloadingBill_run.
  destruct (overDays _ _ _ _ _ _ _) as [[[|]|error|] t']; cbn [snd];
    try (exists []; split; [now rewrite app_nil_r | now left]).
  eexists. split; [reflexivity | now right].
Qed.

(** X4: a call writes nothing but located documents.  Every write it
    attempts, whether it succeeds or fails, carries the body of a response
    that one of its own requests was classified DocumentFound for, and goes
    to the file named after the account number and the date of that request. *)
Theorem X4_only_located_documents_are_written env self issuedDate dir opts
    (t delta : Trace) (path : string) (data : Body) (failure : option string) :
  let run := tryDownloadingBill env self issuedDate dir opts t in
  snd run = t ++ delta ->
  In (EvWriteFile path data failure) delta ->
  exists i : nat,
    let day := effectiveStart opts + Z.of_nat i in
    let date := civilDate (getFullYear issuedDate) (getMonth issuedDate) day in
    day <= effectiveStop opts
    /\ (i < List.length (fetched delta))%nat
    /\ probeAt env self issuedDate (count_fetches t + i) day = DocumentFound data
    /\ path = path_resolve env dir (billFileName (accountNumber self) date).
Proof.
  cbv zeta. intros Hdelta Hin.
  set (t0 := t ++ [EvLog Blue (banner (format_MM_yyyy issuedDate))]).
  destruct (overDays_writes env self (getFullYear issuedDate) (getMonth issuedDate) dir
              (daysFromTo (effectiveStart opts) (effectiveStop opts)) t0)
    as [delta0 [Hdelta0 Hwrites]].
  assert (Hc : count_fetches t0 = count_fetches t).
  { unfold t0. rewrite count_fetches_app, count_fetches_log. lia. }
  destruct (tryDownloadingBill_trace env self issuedDate dir opts t)
    as [tail [Htrace Htail]].
  fold t0 in Htrace. rewrite Hdelta0, Hdelta in Htrace. unfold t0 in Htrace.
  rewrite <- !app_assoc in Htrace. apply app_inv_head in Htrace. subst delta.
  assert (Hin0 : In (EvWriteFile path data failure) delta0).
  { cbn [app] in Hin. destruct Hin as [Hin|Hin]; [discriminate|].
    apply in_app_or in Hin. destruct Hin as [Hin|Hin]; [exact Hin|].
    destruct Htail as [->| ->]; [destruct Hin|].
    destruct Hin as [Hin|[]]. discriminate. }
  destruct (Hwrites path data failure Hin0) as [i [d [Hd [Hi [Hp Ho]]]]].
  apply daysFromTo_nth in Hd. destruct Hd as [-> Hle]. rewrite Hc in Ho.
  exists i. split; [exact Hle|]. split; [|split; [exact Ho|]].
  - autorewrite with trace. cbn [List.length]. lia.
  - rewrite Hp. apply savePathOf_billFileName.
Qed.

Lemma X4_only_located_documents_are_written_witness :
  exists i : nat,
    probeAt portalWriteFails sampleDownloader march2024 i (14 + Z.of_nat i)
    = DocumentFound sampleBill.
Proof.
  destruct (X4_only_located_documents_are_written portalWriteFails sampleDownloader
              march2024 "/bills" None []
              (snd (tryDownloadingBill portalWriteFails sampleDownloader march2024
                      "/bills" None []))
              "/bills/12349780000-2024-03-14.pdf" sampleBill
              (Some "ENOSPC: no space left on device"%string))
    as [i [_ [_ [Hprobe _]]]].
  - reflexivity.
  - vm_compute. auto 10.
  - exists i. exact Hprobe.
Defined.

(** ** The dates that reach the portal *)






(** ** The polling options *)

Lemma clamp_idempotent (x : Z) : clamp (clamp x) = clamp x.
Proof.
  unfold clamp.
  destruct (Z.ltb_spec x 0); [reflexivity|].
  destruct (Z.ltb_spec 31 x); [reflexivity|].
  destruct (Z.ltb_spec x 0); [lia|]. destruct (Z.ltb_spec 31 x); [lia|]. reflexivity.
Qed.

(** A call depends on its options through the two effective bounds only. *)
Lemma tryDownloadingBill_same_bounds env self issuedDate dir opts opts' t :
  effectiveStart opts = effectiveStart opts' ->
  effectiveStop opts = effectiveStop opts' ->
  tryDownloadingBill env self issuedDate dir opts t
  = tryDownloadingBill env self issuedDate dir opts' t.
Proof. intros Hs He. now rewrite !tryDownloadingBill_run, Hs, He. Qed.

(** X6: bounds outside [0,31] behave exactly as the nearest bounds inside:
    the call with the window [(s, e)] and the call with the window
    [(clamp s, clamp e)] complete alike and leave the same trace. *)
Theorem X6_out_of_range_bounds_act_as_clamped env self issuedDate dir (s e : Z)
    (t : Trace) :
  tryDownloadingBill env self issuedDate dir (window s e) t
  = tryDownloadingBill env self issuedDate dir (window (clamp s) (clamp e)) t.
Proof.
  apply tryDownloadingBill_same_bounds.
  - unfold effectiveStart, window; cbn [Object_assign arg_startTryingOn startTryingOn].
    now rewrite !Math_min_max_clamp, clamp_idempotent.
  - unfold effectiveStop, window; cbn [Object_assign arg_stopTryingOn stopTryingOn].
    now rewrite !Math_min_max_clamp, clamp_idempotent.
Qed.

(** X7: a bound the caller leaves out is the default of [PollingOptions]:
    no options at all, or an options object without either property, is the
    window 14..20; an object with [startTryingOn] alone keeps the stop day 20
    and one with [stopTryingOn] alone keeps the start day 14. *)
Theorem X7_missing_bounds_are_the_defaults env self issuedDate dir (s e : Z)
    (t : Trace) :
  let call := fun opts => tryDownloadingBill env self issuedDate dir opts t in
  call None = call (window 14 20)
  /\ call (Some {| arg_startTryingOn := None; arg_stopTryingOn := None |})
     = call (window 14 20)
  /\ call (Some {| arg_startTryingOn := Some s; arg_stopTryingOn := None |})
     = call (window s 20)
  /\ call (Some {| arg_startTryingOn := None; arg_stopTryingOn := Some e |})
     = call (window 14 e).
Proof.
  cbv zeta. repeat split; apply tryDownloadingBill_same_bounds; reflexivity.
Qed.

(** ** Runs without any bill *)






(** ** Bounds and expired sessions in the bulk operation *)

Lemma afterMonths_bounds env self dir opts :
  forall months t,
  exists delta,
    afterMonths env self months dir opts t = t ++ delta
    /\ (List.length (fetched delta) <= windowSize opts * List.length months)%nat
    /\ (List.length (saved delta) <= List.length months)%nat.
Proof.
  induction months as [|month rest IH]; intros t.
  - exists []. cbn. split; [now rewrite app_nil_r | lia].
  - cbn [afterMonths fold_left].
    destruct (tryDownloadingBill_bounds env self month dir opts t)
      as [delta1 [-> [Hf1 [_ Hs1]]]].
    fold (afterMonths env self rest dir opts (t ++ delta1)).
    destruct (IH (t ++ delta1)) as [delta2 [-> [Hf2 Hs2]]].
    exists (delta1 ++ delta2). split; [now rewrite app_assoc|].
    rewrite fetched_app, saved_app, !length_app. cbn [List.length]. split; nia.
Qed.

(** X10: the bulk operation makes at most one request per day of the window
    and per listed month, hence at most 32 per month, and saves at most one
    file per listed month; with no month listed it does nothing at all. *)
Theorem X10_bulk_bounds env self (from to : Date) (dir : string)
    (opts : option OptionsArg) (t : Trace) :
  let months := eachMonthOfInterval env from to in
  let run := tryBulkDownload env self from to dir opts t in
  exists delta,
    snd run = t ++ delta
    /\ (List.length (fetched delta) <= windowSize opts * List.length months)%nat
    /\ (List.length (fetched delta) <= 32 * List.length months)%nat
    /\ (List.length (saved delta) <= List.length months)%nat
    /\ (months = [] -> run = (Normal tt, t)).
Proof.
  cbv zeta. unfold tryBulkDownload.
  destruct (forMonths_run env self dir opts (eachMonthOfInterval env from to) t)
    as [Hrun _].
  rewrite Hrun. cbn [snd].
  destruct (afterMonths_bounds env self dir opts (eachMonthOfInterval env from to) t)
    as [delta [Hafter [Hf Hs]]].
  exists delta. split; [exact Hafter|]. split; [exact Hf|].
  assert (Hsize : (windowSize opts <= 32)%nat).
  { pose proof (effectiveStart_bounds opts). pose proof (effectiveStop_bounds opts).
    unfold windowSize. lia. }
  split; [nia|]. split; [exact Hs|].
  intros Hnil. rewrite Hnil. reflexivity.
Qed.

(** With an expired session, a window that is not empty and a first
    candidate day whose date holds a time value, a call makes one request,
    logs the authentication message and returns. *)
Lemma tryDownloadingBill_logged_out env self issuedDate dir opts (t : Trace) :
  (forall index request, exists reason,
     probeOutcome (fetch env index request) = AuthenticationFailed reason) ->
  effectiveStart opts <= effectiveStop opts ->
  holdsTime env issuedDate (effectiveStart opts) ->
  exists reason,
    tryDownloadingBill env self issuedDate dir opts t
    = (Normal tt,
       t ++ [EvLog Blue (banner (format_MM_yyyy issuedDate))]
         ++ probing self (civilDate (getFullYear issuedDate) (getMonth issuedDate)
                            (effectiveStart opts))
         ++ [EvLog Red reason]).
Proof.
  intros Hout Hdays Hholds. apply holdsTime_inTimeRange in Hholds.
  rewrite tryDownloadingBill_run, (daysFromTo_cons _ _ Hdays).
  set (t0 := t ++ [EvLog Blue (banner (format_MM_yyyy issuedDate))]).
  destruct (Hout (count_fetches t0)
              (buildRequest self (civilDate (getFullYear issuedDate)
                 (getMonth issuedDate) (effectiveStart opts))))
    as [reason Hreason].
  destruct (overDays_cons env self (getFullYear issuedDate) (getMonth issuedDate) dir
              (effectiveStart opts)
              (daysFromTo (effectiveStart opts + 1) (effectiveStop opts)) t0 Hholds)
    as [[E _] | [[reason' [E ->]] | [[s [E _]] | [s [msg [E _]]]]]];
    try congruence.
  exists reason'. unfold t0. now rewrite <- !app_assoc.
Qed.

Lemma afterMonths_logged_out env self dir opts :
  (forall index request, exists reason,
     probeOutcome (fetch env index request) = AuthenticationFailed reason) ->
  effectiveStart opts <= effectiveStop opts ->
  forall months t,
    (forall month, In month months -> holdsTime env month (effectiveStart opts)) ->
    count_fetches (afterMonths env self months dir opts t)
    = (count_fetches t + List.length months)%nat
    /\ count_writes (afterMonths env self months dir opts t) = count_writes t.
Proof.
  intros Hout Hdays. induction months as [|month rest IH]; intros t Hholds.
  - unfold afterMonths. cbn [fold_left List.length]. split; lia.
  - cbn [afterMonths fold_left].
    destruct (tryDownloadingBill_logged_out env self month dir opts t Hout Hdays
                (Hholds month (or_introl eq_refl)))
      as [reason ->].
    cbn [snd].
    match goal with
    | |- context [fold_left _ rest ?t1] =>
        fold (afterMonths env self rest dir opts t1);
        destruct (IH t1 (fun month' Hin => Hholds month' (or_intror Hin))) as [-> ->]
    end.
    rewrite !count_fetches_app, !count_writes_app, count_fetches_probing,
      !count_fetches_log, !count_writes_log.
    cbn [List.length]. split; [lia|]. cbn. lia.
Qed.

(** X11: an expired session costs one request per month.  When every
    request is answered by the authentication signal, the window is not
    empty, and the first candidate day of every listed month has a Date that
    holds a time value, the bulk operation makes exactly one request for
    each listed month, writes nothing, and still returns normally. *)
Theorem X11_expired_session_one_request_per_month env self (from to : Date)
    (dir : string) (opts : option OptionsArg) (t : Trace) :
  let months := eachMonthOfInterval env from to in
  let run := tryBulkDownload env self from to dir opts t in
  (forall index request, exists reason,
     probeOutcome (fetch env index request) = AuthenticationFailed reason) ->
  effectiveStart opts <= effectiveStop opts ->
  (forall month, In month months -> holdsTime env month (effectiveStart opts)) ->
  fst run = Normal tt
  /\ count_fetches (snd run) = (count_fetches t + List.length months)%nat
  /\ count_writes (snd run) = count_writes t.
Proof.
  cbv zeta. intros Hout Hdays Hholds. unfold tryBulkDownload.
  destruct (forMonths_run env self dir opts (eachMonthOfInterval env from to) t)
    as [Hrun _].
  rewrite Hrun. cbn [fst snd]. split; [reflexivity|].
  now apply afterMonths_logged_out.
Qed.

Lemma X11_expired_session_one_request_per_month_witness :
  count_fetches (snd (tryBulkDownload portalLoggedOut sampleDownloader march2024
                        may2024 "/bills" None [])) = 3%nat
  /\ count_writes (snd (tryBulkDownload portalLoggedOut sampleDownloader march2024
                          may2024 "/bills" None [])) = 0%nat.
Proof.
  destruct (X11_expired_session_one_request_per_month portalLoggedOut sampleDownloader
              march2024 may2024 "/bills" None [])
    as [_ [Hf Hw]].
  - intros index request. exists auth_message. reflexivity.
  - vm_compute. discriminate.
  - intros month Hin. vm_compute in Hin.
    destruct Hin as [<- | [<- | [<- | []]]]; vm_compute; discriminate.
  - split; [exact Hf | exact Hw].
Defined.

(** ** A downloader that has not been authenticated *)

(** X12: the requests of a downloader fresh from its constructor carry an
    empty cookie header, and their URL asks the portal's [ViewBill] page for
    the billing id given to the constructor. *)
Theorem X12_fresh_downloader_sends_no_cookie env (accountId billingId : string)
    issuedDate dir opts (t delta : Trace) (request : Request) :
  let self := NicorGasBillDownloader_new accountId billingId in
  let run := tryDownloadingBill env self issuedDate dir opts t in
  snd run = t ++ delta ->
  In request (fetched delta) ->
  cookieHeader request = ""%string
  /\ exists billDate,
       requestUrl request
       = ("https://customerportal.southerncompany.com/Billing/ViewBill?BillDate="
          ++ billDate ++ "&BillId=" ++ billingId ++ "&BillRoutingNum=1")%string.
Proof.
  cbv zeta. intros Hdelta Hin.
  destruct (tryDownloadingBill_requests env
              (NicorGasBillDownloader_new accountId billingId) issuedDate dir opts t)
    as [delta' [k [Hdelta' [Hreq _]]]].
  rewrite Hdelta in Hdelta'. apply app_inv_head in Hdelta'. subst delta'.
  rewrite Hreq in Hin. apply in_map_iff in Hin. destruct Hin as [d [<- _]].
  split; [reflexivity|]. eexists. reflexivity.
Qed.

Lemma X12_fresh_downloader_sends_no_cookie_witness :
  cookieHeader
    (buildRequest (NicorGasBillDownloader_new "12349780000" "98567123467")
       (civilDate 2024 2 14))
  = ""%string.
Proof.
  apply (X12_fresh_downloader_sends_no_cookie portalEmpty "12349780000" "98567123467"
           march2024 "/bills" None []
           (snd (tryDownloadingBill portalEmpty
                   (NicorGasBillDownloader_new "12349780000" "98567123467")
                   march2024 "/bills" None []))
           (buildRequest (NicorGasBillDownloader_new "12349780000" "98567123467")
              (civilDate 2024 2 14))).
  - reflexivity.
  - vm_compute. auto.
Defined.

(** ** Widening the window *)

(** A loop that ends the function on one of its days ends it in the same
    way when more days follow. *)
Lemma overDays_returned_app env self y m dir :
  forall days more t t',
    overDays env self y m dir days t = (Normal Returned, t') ->
    overDays env self y m dir (days ++ more) t = (Normal Returned, t').
Proof.
  induction days as [|day rest IH]; intros more t t' Hrun.
  - discriminate.
  - rewrite <- app_comm_cons. cbn [overDays] in *. unfold bind in *.
    destruct (tryDay env self y m dir day t) as [[[|]|error|] t1];
      try exact Hrun.
    now apply IH.
Qed.

(** X13: a later stop day never changes a call that found its end inside
    the window.  When the call with the window [(s, e)] returns normally (a
    bill saved or an authentication failure), the call with the same start
    day and any stop day whose clamp is not smaller completes alike and
    leaves the same trace. *)
Theorem X13_later_stop_day_keeps_a_normal_return env self issuedDate dir
    (s e e' : Z) (t : Trace) :
  clamp e <= clamp e' ->
  fst (tryDownloadingBill env self issuedDate dir (window s e) t) = Normal tt ->
  tryDownloadingBill env self issuedDate dir (window s e') t
  = tryDownloadingBill env self issuedDate dir (window s e) t.
Proof.
  intros Hwider Hnormal.
  assert (Es : forall x, effectiveStart (window s x) = clamp s)
    by (intros x; apply Math_min_max_clamp).
  assert (Ee : forall x, effectiveStop (window s x) = clamp x)
    by (intros x; apply Math_min_max_clamp).
  rewrite !tryDownloadingBill_run, !Es, !Ee in *.
  destruct (Z.lt_ge_cases (clamp e) (clamp s)) as [Hempty|Hdays].
  - rewrite (daysFromTo_empty _ _ Hempty) in Hnormal. discriminate.
  - rewrite (daysFromTo_app (Z.to_nat (clamp e - clamp s + 1)) (clamp s) (clamp e'))
      by lia.
    replace (clamp s + Z.of_nat (Z.to_nat (clamp e - clamp s + 1)) - 1)
      with (clamp e) by lia.
    destruct (overDays env self (getFullYear issuedDate) (getMonth issuedDate) dir
                (daysFromTo (clamp s) (clamp e)) _)
      as [[[|]|error|] t'] eqn:Hover; try discriminate.
    now rewrite (overDays_returned_app _ _ _ _ _ _ _ _ _ Hover).
Qed.

Lemma X13_later_stop_day_keeps_a_normal_return_witness :
  tryDownloadingBill portalFoundSecond sampleDownloader march2024 "/bills"
    (window 14 31) []
  = tryDownloadingBill portalFoundSecond sampleDownloader march2024 "/bills"
      (window 14 15) [].
Proof.
  apply (X13_later_stop_day_keeps_a_normal_return portalFoundSecond sampleDownloader
           march2024 "/bills" 14 15 31 []).
  - vm_compute. discriminate.
  - reflexivity.
Defined.
